(** * Weather / RAG assistant: a shallow embedding of the pipeline's pure core

    The development embeds the text chunker ([pdf_processor.py]), the
    response evaluator ([evaluation_service.py]), the query classifier and
    city extraction with the top-level query entry point ([ai_pipeline.py])
    and the ingestion call of the vector store ([vector_store.py]).

    Python [str] values are embedded as lists of 8-bit characters holding the
    UTF-8 encoding of the string.  Substring tests are exact under this
    encoding; lengths, character classes and case mapping are those of
    Python on ASCII text, and bytes above 127 are uncased symbols that are
    neither whitespace nor word characters.  Python [int] is [Z], a [dict]
    with string keys is a [gmap string _], a [set] is a [gset]. *)

From Stdlib Require Import ZArith QArith Ascii String Lia.
From stdpp Require Import base list strings gmap.

Local Open Scope Z_scope.

Abbreviation text := (list ascii).

Definition T (s : string) : text := list_ascii_of_string s.
Coercion T : string >-> list.

(** ** Python string primitives *)

Module PyStr.

Definition ord (c : ascii) : N := N_of_ascii c.

(** [str.isspace] and the regex class [\s] on ASCII: TAB..CR, FS..US, SPACE. *)
Definition isspace (c : ascii) : bool :=
  ((9 <=? ord c) && (ord c <=? 13) || (28 <=? ord c) && (ord c <=? 32))%N.

Definition isupper (c : ascii) : bool := ((65 <=? ord c) && (ord c <=? 90))%N.
Definition islower (c : ascii) : bool := ((97 <=? ord c) && (ord c <=? 122))%N.
Definition isdigit (c : ascii) : bool := ((48 <=? ord c) && (ord c <=? 57))%N.

(** The regex class [\w]. *)
Definition isword (c : ascii) : bool :=
  isupper c || islower c || isdigit c || (ord c =? 95)%N.

Definition lower_char (c : ascii) : ascii :=
  if isupper c then ascii_of_N (ord c + 32) else c.
Definition upper_char (c : ascii) : ascii :=
  if islower c then ascii_of_N (ord c - 32) else c.

(** [s.lower()] *)
Definition lower (s : text) : text := map lower_char s.

(** [s.title()]: a cased character is upper-cased when the character
    before it is uncased, and lower-cased otherwise. *)
Fixpoint title_go (prev_cased : bool) (s : text) : text :=
  match s with
  | [] => []
  | c :: s' =>
      (if prev_cased then lower_char c else upper_char c)
        :: title_go (isupper c || islower c) s'
  end.
Definition title (s : text) : text := title_go false s.

Fixpoint lstrip (s : text) : text :=
  match s with
  | [] => []
  | c :: s' => if isspace c then lstrip s' else s
  end.
Definition rstrip (s : text) : text := rev (lstrip (rev s)).

(** [s.strip()] *)
Definition strip (s : text) : text := rstrip (lstrip s).

(** Truth value of a string: [if s:] *)
Definition truthy (s : text) : bool :=
  match s with [] => false | _ :: _ => true end.

Fixpoint startswith (p s : text) : bool :=
  match p, s with
  | [], _ => true
  | _ :: _, [] => false
  | a :: p', b :: s' => if Ascii.eqb a b then startswith p' s' else false
  end.

(** [sub in s] *)
Fixpoint contains (sub s : text) : bool :=
  startswith sub s
  || match s with [] => false | _ :: s' => contains sub s' end.

(** [len(s)] *)
Definition len (s : text) : Z := Z.of_nat (length s).

(** Slice indices: a negative index counts from the end, and the result
    is clamped to [0, len]. *)
Definition adjust (n i : Z) : Z :=
  if i <? 0 then Z.max 0 (i + n) else Z.min i n.

(** [s[start:stop]] *)
Definition slice (s : text) (start stop : Z) : text :=
  let i := adjust (len s) start in
  let j := adjust (len s) stop in
  take (Z.to_nat (j - i)) (drop (Z.to_nat i) s).

(** Highest offset at which [sub] occurs in [s], offsets counted from [i]. *)
Fixpoint find_last (sub s : text) (i : nat) : option nat :=
  match s with
  | [] => if startswith sub [] then Some i else None
  | _ :: s' =>
      match find_last sub s' (S i) with
      | Some k => Some k
      | None => if startswith sub s then Some i else None
      end
  end.

(** [s.rfind(sub, start, stop)]: the highest index at which [sub] lies
    within [s[start:stop]], or -1. *)
Definition rfind (s sub : text) (start stop : Z) : Z :=
  match find_last sub (slice s start stop) 0 with
  | Some k => adjust (len s) start + Z.of_nat k
  | None => -1
  end.

(** [re.sub(r'\s+', ' ', s)]: every maximal run of whitespace becomes one
    space. *)
Fixpoint sub_ws_go (in_run : bool) (s : text) : text :=
  match s with
  | [] => []
  | c :: s' =>
      if isspace c
      then (if in_run then sub_ws_go true s' else " "%char :: sub_ws_go true s')
      else c :: sub_ws_go false s'
  end.
Definition sub_ws (s : text) : text := sub_ws_go false s.

(** Maximal runs of characters satisfying [keep], in order. *)
Fixpoint runs_go (keep : ascii -> bool) (cur : text) (s : text) : list text :=
  match s with
  | [] => if truthy cur then [cur] else []
  | c :: s' =>
      if keep c then runs_go keep (cur ++ [c]) s'
      else (if truthy cur then [cur] else []) ++ runs_go keep [] s'
  end.

(** [s.split()] *)
Definition split (s : text) : list text :=
  runs_go (fun c => negb (isspace c)) [] s.

(** [re.findall(r'\w+', s)] *)
Definition findall_words (s : text) : list text := runs_go isword [] s.

End PyStr.

(** ** pdf_processor.py *)

Module PDFProcessor.
Import PyStr.

(** Loop variables of [chunk_text]. *)
Record chunk_state := { cs_start : Z; cs_chunks : list text }.

(** Lines 34-41: the end of the window that starts at [start]. *)
Definition window_end (t : text) (chunk_size start : Z) : Z :=
  let end_ := start + chunk_size in
  if end_ <? len t then
    let sentence_end := rfind t "." start end_ in
    if start + chunk_size / 2 <? sentence_end then sentence_end + 1 else end_
  else end_.

(** Lines 34-48: one iteration of the loop body, up to the update of
    [start]. *)
Definition chunk_body (t : text) (chunk_size overlap : Z) (st : chunk_state)
  : chunk_state :=
  let start := cs_start st in
  let end_ := window_end t chunk_size start in
  let chunk := strip (slice t start end_) in
  {| cs_start := end_ - overlap;
     cs_chunks := if truthy chunk then cs_chunks st ++ [chunk] else cs_chunks st |}.

(** Lines 33-52: the [while] loop with its [break].  [None] when [fuel]
    iterations do not reach the end of the loop. *)
Fixpoint chunk_loop (fuel : nat) (t : text) (chunk_size overlap : Z)
  (st : chunk_state) : option (list text) :=
  if cs_start st <? len t then
    match fuel with
    | O => None
    | S fuel' =>
        let st' := chunk_body t chunk_size overlap st in
        if len t <=? cs_start st' then Some (cs_chunks st')
        else chunk_loop fuel' t chunk_size overlap st'
    end
  else Some (cs_chunks st).

(** Line 28: whitespace normalisation. *)
Definition normalize (s : text) : text := strip (sub_ws s).

Definition chunk_text (fuel : nat) (s : text) (chunk_size overlap : Z)
  : option (list text) :=
  if truthy s then
    chunk_loop fuel (normalize s) chunk_size overlap
      {| cs_start := 0; cs_chunks := [] |}
  else Some [].

(** The loop state after [n] iterations of the body (fewer when the loop
    condition fails earlier). *)
Fixpoint chunk_run (n : nat) (t : text) (chunk_size overlap : Z)
  (st : chunk_state) : chunk_state :=
  match n with
  | O => st
  | S n' =>
      if cs_start st <? len t
      then chunk_run n' t chunk_size overlap (chunk_body t chunk_size overlap st)
      else st
  end.

(** The untrimmed windows [t[start:end]] the loop visits from [start] on. *)
Fixpoint window_loop (fuel : nat) (t : text) (chunk_size overlap start : Z)
  : option (list text) :=
  if start <? len t then
    match fuel with
    | O => None
    | S fuel' =>
        let end_ := window_end t chunk_size start in
        option_map (cons (slice t start end_))
          (window_loop fuel' t chunk_size overlap (end_ - overlap))
    end
  else Some [].

(** What [chunk_text] keeps of a list of windows: each one trimmed, the
    empty ones dropped. *)
Definition chunks_of_windows (ws : list text) : list text :=
  filter (fun c => truthy c = true) (map strip ws).



(** The overlaps for which every window moves the start forward. *)
Definition advancing (chunk_size overlap : Z) : Prop :=
  0 < chunk_size /\ overlap < chunk_size /\ overlap <= chunk_size / 2 + 1.

End PDFProcessor.


(** ** Python values, exceptions and dictionaries *)

Module Py.

(** Values of type [Any] stored in dictionaries. *)
#[local] Unset Elimination Schemes.
Inductive pyval :=
| VStr (s : text)
| VInt (z : Z)
| VNum (q : Q)
| VList (l : list pyval)
| VDict (d : list (string * pyval)).
#[local] Set Elimination Schemes.

(** Exceptions derived from [Exception]; [str] gives the message. *)
Inductive exn :=
| Exception (msg : text)
| KeyError (key : string).

Definition str (e : exn) : text :=
  match e with
  | Exception msg => msg
  | KeyError key => T "'" ++ T key ++ T "'"
  end.

(** A computation returns a value or raises. *)
Inductive result (A : Type) :=
| Ok (a : A)
| Raise (e : exn).
Arguments Ok {A} a.
Arguments Raise {A} e.

Definition bind {A B : Type} (m : result A) (k : A -> result B) : result B :=
  match m with
  | Ok a => k a
  | Raise e => Raise e
  end.

(** [try: body except Exception as e: handler] *)
Definition try_except {A : Type} (body : result A) (handler : exn -> result A)
  : result A :=
  match body with
  | Ok a => Ok a
  | Raise e => handler e
  end.

(** [d[key]] *)
Definition getitem (d : gmap string pyval) (key : string) : result pyval :=
  match d !! key with
  | Some v => Ok v
  | None => Raise (KeyError key)
  end.

(** [d.get(key, default)] *)
Definition get (d : gmap string pyval) (key : string) (default : pyval) : pyval :=
  match d !! key with
  | Some v => v
  | None => default
  end.

(** [any(w in s for w in words)] *)
Definition any_in (words : list text) (s : text) : bool :=
  existsb (fun w => PyStr.contains w s) words.

Definition text_eqb (a b : text) : bool := bool_decide (a = b).

End Py.

(** ** evaluation_service.py *)

Module EvaluationService.
Import PyStr Py.

Definition _evaluate_accuracy (query response query_type : text) : Z :=
  if negb (truthy response) || text_eqb (strip response) "" then 1
  else if any_in (map T ["error"; "failed"; "unavailable"; "limitation"])
            (lower response) then 2
  else if text_eqb query_type "weather" then
    let weather_indicators :=
      map T ["temperature"; "humidity"; "wind"; "pressure"; "°c"; "°f"] in
    if any_in weather_indicators (lower response) then 4 else 3
  else if text_eqb query_type "rag" then
    if contains "document" (lower response) || contains "chunk" (lower response)
    then 4 else 3
  else 3.

Definition _evaluate_relevance (query response query_type : text) : Z :=
  if negb (truthy response) then 1
  else
    let query_words : gset text := list_to_set (findall_words (lower query)) in
    let response_words : gset text := list_to_set (findall_words (lower response)) in
    let overlap := Z.of_nat (size (query_words ∩ response_words)) in
    if 0 <? overlap then Z.min 5 (3 + overlap) else 3.

Definition _evaluate_completeness (query response query_type : text) : Z :=
  if negb (truthy response) then 1
  else
    let word_count := Z.of_nat (length (split response)) in
    if word_count <? 10 then 2
    else if word_count <? 50 then 3
    else if word_count <? 200 then 4
    else 5.

Definition newline : ascii := "010"%char.

Definition _evaluate_clarity (response : text) : Z :=
  if negb (truthy response) then 1
  else
    let has_headers := contains "#" response || contains "**" response in
    let has_structure := any_in (map T ["•"; "-"; "*"; "1."; "2."]) response in
    let has_paragraphs := contains [newline; newline] response in
    let score := 3 in
    let score := if has_headers then score + 1 else score in
    let score := if has_structure then score + 1 else score in
    let score := if has_paragraphs then score + 1 else score in
    Z.min 5 score.

(** The evaluation dictionary. *)
Record evaluation := {
  accuracy : Z;
  relevance : Z;
  completeness : Z;
  clarity : Z;
  overall_score : Q;
  feedback : list text;
  error : option text
}.

Definition _generate_feedback (ev : evaluation) : list text :=
  (if accuracy ev <? 3 then [T "⚠️ Response accuracy could be improved"] else [])
  ++ (if relevance ev <? 3
      then [T "⚠️ Response could be more relevant to the query"] else [])
  ++ (if completeness ev <? 3
      then [T "⚠️ Response could be more comprehensive"] else [])
  ++ (if clarity ev <? 3
      then [T "⚠️ Response could be clearer and better formatted"] else [])
  ++ (if Qle_bool 4 (overall_score ev) then [T "✅ Excellent response quality"]
      else if Qle_bool 3 (overall_score ev) then [T "✅ Good response quality"]
      else [T "⚠️ Response quality needs improvement"]).

Definition sum (l : list Z) : Z := foldr Z.add 0 l.

(** [sum(scores) / len(scores)]: true division.  The quotient of an
    integer by four is a binary fraction, so the rational is the value
    of the float. *)
Definition mean (scores : list Z) : Q :=
  (inject_Z (sum scores) / inject_Z (Z.of_nat (length scores)))%Q.

(** Lines 14-31.  Every operation of the body is total on strings, so the
    handler of lines 33-42 is not entered. *)
Definition evaluate_response (user_query response query_type : text) : evaluation :=
  let evaluation0 :=
    {| accuracy := _evaluate_accuracy user_query response query_type;
       relevance := _evaluate_relevance user_query response query_type;
       completeness := _evaluate_completeness user_query response query_type;
       clarity := _evaluate_clarity response;
       overall_score := 0;
       feedback := [];
       error := None |} in
  let scores := [accuracy evaluation0; relevance evaluation0;
                 completeness evaluation0; clarity evaluation0] in
  let evaluation1 :=
    {| accuracy := accuracy evaluation0;
       relevance := relevance evaluation0;
       completeness := completeness evaluation0;
       clarity := clarity evaluation0;
       overall_score := mean scores;
       feedback := [];
       error := None |} in
  {| accuracy := accuracy evaluation1;
     relevance := relevance evaluation1;
     completeness := completeness evaluation1;
     clarity := clarity evaluation1;
     overall_score := overall_score evaluation1;
     feedback := _generate_feedback evaluation1;
     error := None |}.


End EvaluationService.

(** ** weather_service.py *)

Module WeatherService.
Import Py.

(** The keys of [indian_cities], in insertion order. *)
Definition get_indian_cities_list : list text :=
  map T ["delhi"; "mumbai"; "bangalore"; "chennai"; "kolkata"; "hyderabad";
         "pune"; "ahmedabad"; "jaipur"; "lucknow"; "kanpur"; "nagpur";
         "indore"; "thane"; "bhopal"; "visakhapatnam"; "patna"; "vadodara";
         "ghaziabad"; "ludhiana"].

(** The two lookups the pipeline calls; each reaches the weather API and
    returns a dictionary or raises. *)
Record service := {
  get_aqi_info : text -> result pyval;
  get_weather_by_city : text -> result pyval
}.

End WeatherService.

(** ** Regular expressions of the city patterns *)

Module Re.
Import PyStr.

(** A pattern is a sequence of literal texts and groups [(\w+)]. *)
Inductive item :=
| Lit (s : text)
| WordGroup.

Fixpoint word_run (s : text) : nat :=
  match s with
  | [] => O
  | c :: s' => if isword c then S (word_run s') else O
  end.

(** Match the pattern at the start of [s]; the result is the text of the
    last group matched ([group] when there is none).  A group is greedy:
    the longest run of word characters is tried first, then shorter ones. *)
Fixpoint match_here (p : list item) (s : text) (group : text) : option text :=
  match p with
  | [] => Some group
  | Lit l :: p' =>
      if startswith l s then match_here p' (drop (length l) s) group else None
  | WordGroup :: p' =>
      (fix try (k : nat) : option text :=
         match k with
         | O => None
         | S k' =>
             match match_here p' (drop k s) (take k s) with
             | Some g => Some g
             | None => try k'
             end
         end) (word_run s)
  end.

(** [re.search(p, s)] followed by [.group(1)]: the leftmost match. *)
Fixpoint search (p : list item) (s : text) : option text :=
  match match_here p s [] with
  | Some g => Some g
  | None =>
      match s with
      | [] => None
      | _ :: s' => search p s'
      end
  end.


End Re.

(** ** ai_pipeline.py *)

Module AIPipeline.
Import PyStr Py.

(** [AgentState]: a [TypedDict], every key present. *)
Record AgentState := {
  user_query : text;
  query_type : text;
  weather_data : pyval;
  retrieved_docs : pyval;
  response : text;
  evaluation : pyval
}.

Definition weather_keywords : list text :=
  map T ["weather"; "temperature"; "forecast"; "humidity"; "wind";
         "rain"; "snow"; "sunny"; "cloudy"; "hot"; "cold"; "degrees";
         "celsius"; "fahrenheit"; "precipitation"; "atmosphere"; "aqi";
         "air quality"; "pollution"; "air quality index"].

Definition _classify_query (state : AgentState) : AgentState :=
  let query := lower (user_query state) in
  let is_weather_query := any_in weather_keywords query in
  {| user_query := user_query state;
     query_type := if is_weather_query then T "weather" else T "rag";
     weather_data := weather_data state;
     retrieved_docs := retrieved_docs state;
     response := response state;
     evaluation := evaluation state |}.

Definition _route_query (state : AgentState) : text := query_type state.

Definition cities : list text :=
  map T ["london"; "new york"; "tokyo"; "paris"; "berlin"; "moscow";
         "beijing"; "sydney"; "toronto"; "vancouver"; "san francisco";
         "los angeles"; "chicago"; "miami"; "boston"; "seattle"; "denver";
         "phoenix"; "dallas"; "houston"; "atlanta";
         "delhi"; "mumbai"; "bangalore"; "chennai"; "kolkata"; "hyderabad";
         "pune"; "ahmedabad"; "jaipur"; "lucknow"; "kanpur"; "nagpur";
         "indore"; "thane"; "bhopal"; "visakhapatnam"; "patna"; "vadodara";
         "ghaziabad"; "ludhiana"].

Definition patterns : list (list Re.item) :=
  [ [Re.Lit "weather in "; Re.WordGroup];
    [Re.Lit "temperature in "; Re.WordGroup];
    [Re.Lit "forecast for "; Re.WordGroup];
    [Re.WordGroup; Re.Lit " weather"];
    [Re.WordGroup; Re.Lit " temperature"] ].

(** The first gazetteer entry occurring in [query_lower]. *)
Definition first_city (query_lower : text) : option text :=
  List.find (fun city => contains city query_lower) cities.

(** The capture of the first pattern that matches [query_lower]. *)
Fixpoint first_capture (ps : list (list Re.item)) (query_lower : text) : option text :=
  match ps with
  | [] => None
  | p :: ps' =>
      match Re.search p query_lower with
      | Some g => Some g
      | None => first_capture ps' query_lower
      end
  end.

Definition _extract_city_from_query (query : text) : text :=
  let query_lower := lower query in
  match first_city query_lower with
  | Some city => title city
  | None =>
      match first_capture patterns query_lower with
      | Some g => title g
      | None => []
      end
  end.

(** The call [_get_weather] makes on the weather service. *)
Inductive weather_call :=
| AqiInfo (city : text)
| WeatherByCity (city : text).

Definition call_city (c : weather_call) : text :=
  match c with
  | AqiInfo city => city
  | WeatherByCity city => city
  end.

(** Lines 98-127: which lookup is made, and for which city. *)
Definition weather_request (user_query : text) : weather_call :=
  let query := lower user_query in
  let is_aqi_query :=
    any_in (map T ["aqi"; "air quality"; "pollution"; "air quality index"]) query in
  let city := _extract_city_from_query user_query in
  if truthy city then
    if is_aqi_query then AqiInfo city else WeatherByCity city
  else
    let default_city :=
      if any_in WeatherService.get_indian_cities_list query
      then T "delhi" else T "London" in
    if is_aqi_query then AqiInfo default_city else WeatherByCity default_city.

Definition perform (svc : WeatherService.service) (c : weather_call) : result pyval :=
  match c with
  | AqiInfo city => WeatherService.get_aqi_info svc city
  | WeatherByCity city => WeatherService.get_weather_by_city svc city
  end.

Definition set_weather_data (state : AgentState) (data : pyval) : AgentState :=
  {| user_query := user_query state;
     query_type := query_type state;
     weather_data := data;
     retrieved_docs := retrieved_docs state;
     response := response state;
     evaluation := evaluation state |}.

Definition _get_weather (svc : WeatherService.service) (state : AgentState)
  : AgentState :=
  match perform svc (weather_request (user_query state)) with
  | Ok data => set_weather_data state data
  | Raise e => set_weather_data state (VDict [("error"%string, VStr (str e))])
  end.


Definition initial_state (user_query : text) : AgentState :=
  {| user_query := user_query;
     query_type := [];
     weather_data := VDict [];
     retrieved_docs := VList [];
     response := [];
     evaluation := VDict [] |}.

Definition apology : text :=
  "Sorry, I encountered an error processing your request.".

(** The dictionary returned when the graph run succeeds. *)
Definition answer (result : AgentState) : gmap string pyval :=
  list_to_map
    [("query"%string, VStr (user_query result));
     ("query_type"%string, VStr (query_type result));
     ("response"%string, VStr (response result));
     ("evaluation"%string, evaluation result);
     ("weather_data"%string, weather_data result);
     ("retrieved_docs"%string, retrieved_docs result)].

(** The dictionary returned by the handler. *)
Definition failure (e : exn) (user_query : text) : gmap string pyval :=
  list_to_map
    [("error"%string, VStr (T "Pipeline error: " ++ str e));
     ("query"%string, VStr user_query);
     ("response"%string, VStr apology)].

(** [process_query]; [invoke] is the compiled graph's [invoke], which
    returns the final state or raises. *)
Definition process_query (invoke : AgentState -> result AgentState)
  (user_query : text) : result (gmap string pyval) :=
  try_except
    (bind (invoke (initial_state user_query)) (fun result => Ok (answer result)))
    (fun e => Ok (failure e user_query)).

End AIPipeline.

(** ** vector_store.py *)

Module VectorStore.
Import Py.

Abbreviation document := (gmap string pyval).
Abbreviation embedding := (list Q).

Record PointStruct := {
  id : text;
  vector : embedding;
  payload : gmap string pyval
}.

(** The embedding provider, the Qdrant client and the source of UUIDs:
    [uuid4 n] is the n-th identifier drawn. *)
Record backend := {
  embed_documents : list pyval -> result (list embedding);
  upsert : text -> list PointStruct -> result unit;
  uuid4 : nat -> text;
  collection_name : text
}.

(** [doc["content"]], when the key is there. *)
Definition content_of (d : document) : option pyval := d !! "content"%string.

(** Requests sent to the provider and to the store. *)
Inductive call :=
| EmbedDocuments (texts : list pyval)
| Upsert (collection : text) (points : list PointStruct).

(** What the outside has seen: how many identifiers were drawn, and the
    requests received, oldest first. *)
Record world := { drawn : nat; calls : list call }.

(** Computations that act on the world and may raise. *)
Definition M (A : Type) : Type := world -> result A * world.

Definition ret {A : Type} (a : A) : M A := fun w => (Ok a, w).
Definition raise {A : Type} (e : exn) : M A := fun w => (Raise e, w).
Definition lift {A : Type} (r : result A) : M A := fun w => (r, w).

Definition mbind {A B : Type} (m : M A) (k : A -> M B) : M B :=
  fun w =>
    match m w with
    | (Ok a, w') => k a w'
    | (Raise e, w') => (Raise e, w')
    end.

Notation "'let*' x ':=' m 'in' k" := (mbind m (fun x => k))
  (at level 10, x name, m at level 100, k at level 200).

(** [try: body except Exception as e: handler]; what the body did to the
    world before raising stays done. *)
Definition try_with {A : Type} (body : M A) (handler : exn -> M A) : M A :=
  fun w =>
    match body w with
    | (Ok a, w') => (Ok a, w')
    | (Raise e, w') => handler e w'
    end.

Definition call_embed (b : backend) (texts : list pyval) : M (list embedding) :=
  fun w => (embed_documents b texts,
            {| drawn := drawn w; calls := calls w ++ [EmbedDocuments texts] |}).

Definition call_upsert (b : backend) (points : list PointStruct) : M unit :=
  fun w => (upsert b (collection_name b) points,
            {| drawn := drawn w;
               calls := calls w ++ [Upsert (collection_name b) points] |}).

Definition call_uuid4 (b : backend) : M text :=
  fun w => (Ok (uuid4 b (drawn w)), {| drawn := S (drawn w); calls := calls w |}).

(** Line 54: [[doc["content"] for doc in documents]] *)
Fixpoint contents (documents : list document) : result (list pyval) :=
  match documents with
  | [] => Ok []
  | doc :: rest =>
      bind (getitem doc "content") (fun c =>
      bind (contents rest) (fun cs => Ok (c :: cs)))
  end.

(** Lines 58-70: one point per pair of [zip(documents, embeddings)]. *)
Fixpoint make_points (b : backend) (pairs : list (document * embedding))
  : M (list PointStruct) :=
  match pairs with
  | [] => ret []
  | (doc, emb) :: rest =>
      let* point_id := call_uuid4 b in
      let* content := lift (getitem doc "content") in
      let point :=
        {| id := point_id;
           vector := emb;
           payload :=
             list_to_map
               [("content"%string, content);
                ("metadata"%string, get doc "metadata" (VDict []));
                ("source"%string, get doc "source" (VStr "unknown"))] |} in
      let* points := make_points b rest in
      ret (point :: points)
  end.

Definition add_documents (b : backend) (documents : list document) : M (list text) :=
  match documents with
  | [] => ret []
  | _ :: _ =>
      try_with
        (let* texts := lift (contents documents) in
         let* embeddings := call_embed b texts in
         let* points := make_points b (zip documents embeddings) in
         let* _ := call_upsert b points in
         ret (map id points))
        (fun e =>
           raise (Exception (T "Error adding documents to vector store: " ++ str e)))
  end.

(** The embedding provider answers with one vector per text. *)
Definition embeds_each (b : backend) : Prop :=
  forall texts es, embed_documents b texts = Ok es -> length es = length texts.

(** A backend for examples: two-dimensional vectors, a store that accepts
    everything, identifiers "a", "aa", "aaa", ... *)
Definition sample_backend : backend :=
  {| embed_documents := fun texts => Ok (map (fun _ => [1%Q; 0%Q]) texts);
     upsert := fun _ _ => Ok tt;
     uuid4 := fun n => repeat "a"%char (S n);
     collection_name := "ai_pipeline_docs" |}.

Definition sample_documents : list document :=
  [ list_to_map [("content"%string, VStr "first chunk");
                 ("source"%string, VStr "pdf_document")];
    list_to_map [("content"%string, VStr "second chunk")] ].

End VectorStore.

(** ** Vocabulary for the properties of the chunker *)

Module Chunks.
Import PyStr PDFProcessor.

(** [c] occurs in [t] as a run of consecutive characters. *)
Definition infix_of (c t : text) : Prop := exists l1 l2, t = l1 ++ c ++ l2.

(** [c] is a chunk appended by the loop of [chunk_text] on [s] at some
    iteration; the chunks returned are among them. *)
Definition chunk_of (s : text) (chunk_size overlap : Z) (c : text) : Prop :=
  exists n : nat,
    c ∈ cs_chunks (chunk_run n (normalize s) chunk_size overlap
                     {| cs_start := 0; cs_chunks := [] |}).

(** The only whitespace of [t] is the space character, never twice in a
    row. *)
Definition single_spaced (t : text) : Prop :=
  Forall (fun c => isspace c = true -> c = " "%char) t
  /\ contains [" "%char; " "%char] t = false.

End Chunks.

(** ** Vocabulary for the properties of the evaluator *)

Module Scores.
Import PyStr Py EvaluationService.

(** The sum of the four sub-scores. *)
Definition total (ev : evaluation) : Z :=
  accuracy ev + relevance ev + completeness ev + clarity ev.

(** How many of the four sub-scores are below 3. *)
Definition low_scores (ev : evaluation) : nat :=
  length (filter (fun x => x < 3) [accuracy ev; relevance ev; completeness ev; clarity ev]).

(** The closing line of the feedback, by the sum of the sub-scores. *)
Definition verdict (sum_of_scores : Z) : text :=
  if 16 <=? sum_of_scores then T "✅ Excellent response quality"
  else if 12 <=? sum_of_scores then T "✅ Good response quality"
  else T "⚠️ Response quality needs improvement".

(** The words that mark a response as a failure report. *)
Definition failure_words : list text :=
  map T ["error"; "failed"; "unavailable"; "limitation"].

(** The distinct words of a text, lower-cased. *)
Definition words (s : text) : gset text := list_to_set (findall_words (lower s)).

End Scores.

(** ** pdf_processor.py: reading and packaging a PDF *)

Module PDFIngest.
Import PyStr Py PDFProcessor.

(** What PyPDF2 gives for a file: the result of [extract_text()] on each
    page, and the document information dictionary when there is one. *)
Record PdfReader := {
  pages : list (result text);
  metadata : option (gmap string pyval)
}.

(** A PDF file is known through [PyPDF2.PdfReader(pdf_file)], which returns
    a reader or raises. *)
Abbreviation pdf_file := (result PdfReader).

Definition newline : ascii := "010"%char.

(** Lines 14-17: [text += page.extract_text() + "\n"] for each page. *)
Fixpoint extract_pages (pages : list (result text)) (text_ : text) : result text :=
  match pages with
  | [] => Ok text_
  | page :: rest => bind page (fun t => extract_pages rest (text_ ++ t ++ [newline]))
  end.

Definition extract_text_from_pdf (pdf : pdf_file) : result text :=
  try_except
    (bind pdf (fun pdf_reader => extract_pages (pages pdf_reader) []))
    (fun e => Raise (Exception (T "Error extracting text from PDF: " ++ str e))).

(** Lines 67-75: the document made of the [i]-th chunk. *)
Definition make_document (source_name : text) (i : nat) (chunk : text)
  : gmap string pyval :=
  list_to_map
    [("content"%string, VStr chunk);
     ("metadata"%string,
      VDict [("chunk_id"%string, VInt (Z.of_nat i));
             ("source"%string, VStr source_name);
             ("chunk_size"%string, VInt (len chunk))]);
     ("source"%string, VStr source_name)].

(** [process_pdf_for_rag]; [None] when [fuel] iterations do not bring
    [chunk_text] to its end. *)
Definition process_pdf_for_rag (fuel : nat) (pdf : pdf_file) (source_name : text)
  : option (result (list (gmap string pyval))) :=
  match extract_text_from_pdf pdf with
  | Raise e => Some (Raise (Exception (T "Error processing PDF: " ++ str e)))
  | Ok text_ =>
      match chunk_text fuel text_ 1000 200 with
      | None => None
      | Some chunks => Some (Ok (imap (make_document source_name) chunks))
      end
  end.

(** [pdf_reader.metadata.get(key, 'Unknown')]; without information
    dictionary [metadata] is [None], which has no [get]. *)
Definition metadata_get (pdf_reader : PdfReader) (key : string) : result pyval :=
  match metadata pdf_reader with
  | Some m => Ok (get m key (VStr "Unknown"))
  | None => Raise (Exception "'NoneType' object has no attribute 'get'")
  end.

Definition get_pdf_info (pdf : pdf_file) : gmap string pyval :=
  match
    bind pdf (fun pdf_reader =>
    bind (metadata_get pdf_reader "/Title") (fun title =>
    bind (metadata_get pdf_reader "/Author") (fun author =>
    bind (metadata_get pdf_reader "/Subject") (fun subject =>
    Ok (list_to_map
          [("num_pages"%string, VInt (Z.of_nat (length (pages pdf_reader))));
           ("title"%string, title);
           ("author"%string, author);
           ("subject"%string, subject)] : gmap string pyval)))))
  with
  | Ok info => info
  | Raise e => list_to_map [("error"%string, VStr (T "Error reading PDF info: " ++ str e))]
  end.


(** The text of every page is whitespace only. *)
Definition blank_pages (pdf_reader : PdfReader) : Prop :=
  Forall (fun page => exists t, page = Ok t /\ forallb isspace t = true)
    (pages pdf_reader).

End PDFIngest.

(** ** vector_store.py: search *)

Module VectorSearch.
Import Py.

(** A hit returned by the Qdrant client. *)
Record ScoredPoint := {
  hit_payload : gmap string pyval;
  hit_score : Q
}.

(** The embedding of a query and the client's search, each of which
    returns or raises. *)
Record backend := {
  embed_query : text -> result (list Q);
  client_search : text -> list Q -> Z -> result (list ScoredPoint);
  collection_name : text
}.

(** Lines 99-104: the dictionary made of one hit. *)
Definition format_hit (hit : ScoredPoint) : result (list (string * pyval)) :=
  bind (getitem (hit_payload hit) "content") (fun content =>
  Ok [("content"%string, content);
      ("metadata"%string, get (hit_payload hit) "metadata" (VDict []));
      ("source"%string, get (hit_payload hit) "source" (VStr "unknown"));
      ("score"%string, VNum (hit_score hit))]).

(** Lines 97-104: the loop over the hits. *)
Fixpoint format_hits (hits : list ScoredPoint) : result (list (list (string * pyval))) :=
  match hits with
  | [] => Ok []
  | hit :: rest =>
      bind (format_hit hit) (fun r =>
      bind (format_hits rest) (fun rs => Ok (r :: rs)))
  end.

Definition search (b : backend) (query : text) (top_k : Z)
  : result (list (list (string * pyval))) :=
  bind (embed_query b query) (fun query_embedding =>
  bind (client_search b (collection_name b) query_embedding top_k) format_hits).

(** The hits a store gives back for points it was sent, with the scores
    [scores]. *)
Definition hits_of (points : list VectorStore.PointStruct) (scores : list Q)
  : list ScoredPoint :=
  zip_with (fun p s => {| hit_payload := VectorStore.payload p; hit_score := s |})
    points scores.

(** The dictionary [search] makes for document [doc] found with [score]. *)
Definition found (doc : gmap string pyval) (content : pyval) (score : Q)
  : list (string * pyval) :=
  [("content"%string, content);
   ("metadata"%string, get doc "metadata" (VDict []));
   ("source"%string, get doc "source" (VStr "unknown"));
   ("score"%string, VNum score)].

(** A search backend for examples: it answers every search with the hits
    of [points], scored [scores]. *)
Definition sample_backend (points : list VectorStore.PointStruct) (scores : list Q)
  : backend :=
  {| embed_query := fun _ => Ok [1%Q; 0%Q];
     client_search := fun _ _ _ => Ok (hits_of points scores);
     collection_name := "ai_pipeline_docs" |}.

End VectorSearch.

(** ** vector_store.py: the collection *)

Module Collections.
Import PyStr Py.

(** Requests on the collection. *)
Inductive request :=
| GetCollection (name : text)
| CreateCollection (name : text) (size : Z) (distance : text)
| DeleteCollection (name : text).

(** The Qdrant server: its answer to a request may depend on the requests
    made before.  [get_collection] answers with the attributes of the
    collection information. *)
Record server := {
  get_collection : list request -> text -> result (gmap string pyval);
  create_collection : list request -> text -> result unit;
  delete_collection : list request -> text -> result unit
}.

(** Computations that log their requests. *)
Definition M (A : Type) : Type := list request -> A * list request.

Definition call_get (s : server) (name : text) : M (result (gmap string pyval)) :=
  fun log => (get_collection s log name, log ++ [GetCollection name]).

Definition call_create (s : server) (name : text) : M (result unit) :=
  fun log => (create_collection s log name,
              log ++ [CreateCollection name 768 "Cosine"]).

Definition call_delete (s : server) (name : text) : M (result unit) :=
  fun log => (delete_collection s log name, log ++ [DeleteCollection name]).

(** Lines 24-45. *)
Definition _ensure_collection_exists (s : server) (name : text) : M (result unit) :=
  fun log =>
    match call_get s name log with
    | (Ok _, log1) => (Ok tt, log1)
    | (Raise _, log1) =>
        match call_create s name log1 with
        | (Ok _, log2) => (Ok tt, log2)
        | (Raise create_error, log2) =>
            if contains "already exists" (str create_error)
            then (Ok tt, log2)
            else (Raise create_error, log2)
        end
    end.

(** Lines 108-113. *)
Definition delete_collection_quietly (s : server) (name : text) : M unit :=
  fun log => (tt, (call_delete s name log).2).

(** [info.name]: an attribute that may be missing. *)
Definition getattr (info : gmap string pyval) (attr : string) : result pyval :=
  match info !! attr with
  | Some v => Ok v
  | None => Raise (Exception (T "'CollectionInfo' object has no attribute '"
                                ++ T attr ++ T "'"))
  end.

Definition info_dict (name vectors_count points_count : pyval) (status : text)
  : gmap string pyval :=
  list_to_map
    [("name"%string, name);
     ("vectors_count"%string, vectors_count);
     ("points_count"%string, points_count);
     ("status"%string, VStr status)].

(** Lines 115-143. *)
Definition get_collection_info (s : server) (name : text) : M (gmap string pyval) :=
  fun log =>
    let (r, log1) := call_get s name log in
    match bind r (fun info =>
          bind (getattr info "name") (fun info_name =>
          Ok (info_dict info_name (get info "vectors_count" (VInt 0))
                (get info "points_count" (VInt 0)) "active")))
    with
    | Ok d => (d, log1)
    | Raise _ =>
        match _ensure_collection_exists s name log1 with
        | (Ok _, log2) => (info_dict (VStr name) (VInt 0) (VInt 0) "active", log2)
        | (Raise _, log2) =>
            (<["message"%string := VStr "Collection ready for use"]>
               (info_dict (VStr name) (VInt 0) (VInt 0) "available"), log2)
        end
    end.

(** A request that creates a collection. *)
Definition is_create (r : request) : bool :=
  match r with CreateCollection _ _ _ => true | _ => false end.

(** A request that deletes a collection. *)
Definition is_delete (r : request) : bool :=
  match r with DeleteCollection _ => true | _ => false end.

End Collections.

(** ** ai_pipeline.py: uploading a PDF *)

Module Upload.
Import PyStr Py PDFIngest.

(** The dictionary returned by [upload_pdf]: the one with [success: True],
    or the one with [success: False]. *)
Inductive upload_result :=
| Uploaded (documents_processed documents_stored : Z)
    (pdf_info : gmap string pyval) (source_name : text)
| Failed (error : text).

(** Lines 263-287.  The file is handed to PyPDF2 twice, by
    [process_pdf_for_rag] and by [get_pdf_info]: [pdf] and [pdf_again] are
    what it gives each time.  [None] when [fuel] iterations do not bring
    [chunk_text] to its end. *)
Definition upload_pdf (fuel : nat) (b : VectorStore.backend)
  (pdf pdf_again : pdf_file) (source_name : text)
  : VectorStore.world -> option upload_result * VectorStore.world :=
  fun w =>
    match process_pdf_for_rag fuel pdf source_name with
    | None => (None, w)
    | Some (Raise e) => (Some (Failed (str e)), w)
    | Some (Ok documents) =>
        match VectorStore.add_documents b documents w with
        | (Raise e, w') => (Some (Failed (str e)), w')
        | (Ok doc_ids, w') =>
            (Some (Uploaded (Z.of_nat (length documents)) (Z.of_nat (length doc_ids))
                     (get_pdf_info pdf_again) source_name), w')
        end
    end.

(** The payload [add_documents] stores for a document. *)
Definition payload_of (doc : gmap string pyval) : gmap string pyval :=
  list_to_map
    [("content"%string, get doc "content" (VStr []));
     ("metadata"%string, get doc "metadata" (VDict []));
     ("source"%string, get doc "source" (VStr "unknown"))].

(** A reader for examples: two pages, no information dictionary. *)
Definition sample_pdf : pdf_file :=
  Ok {| pages := [Ok (T "Sunny spells."); Ok (T "  Mild wind. ")]; metadata := None |}.

End Upload.

(** ** Values for examples *)

Module Samples.
Import Py.

Definition world0 : VectorStore.world :=
  {| VectorStore.drawn := 0; VectorStore.calls := [] |}.

(** The points [add_documents] builds from the sample documents. *)
Definition sample_points : list VectorStore.PointStruct :=
  imap (fun i doc =>
          {| VectorStore.id := VectorStore.uuid4 VectorStore.sample_backend i;
             VectorStore.vector := [1%Q; 0%Q];
             VectorStore.payload := Upload.payload_of doc |})
    VectorStore.sample_documents.

(** A PDF that PyPDF2 cannot read. *)
Definition broken_pdf : PDFIngest.pdf_file := Raise (Exception "EOF marker not found").

(** A server on which the collection is there. *)
Definition server_with_collection : Collections.server :=
  {| Collections.get_collection := fun _ _ =>
       Ok (list_to_map [("points_count"%string, VInt 7)]);
     Collections.create_collection := fun _ _ =>
       Raise (Exception "Collection `ai_pipeline_docs` already exists!");
     Collections.delete_collection := fun _ _ => Ok tt |}.

(** A server that answers nothing. *)
Definition server_down : Collections.server :=
  {| Collections.get_collection := fun _ _ => Raise (Exception "timed out");
     Collections.create_collection := fun _ _ => Raise (Exception "timed out");
     Collections.delete_collection := fun _ _ => Raise (Exception "timed out") |}.

End Samples.

(** ** weather_service.py: air quality *)

Module WeatherAPI.
Import PyStr Py.

(** A dictionary seen as the list of its items. *)
Abbreviation dict := (list (string * pyval)).

(** [key in d] *)
Definition has_key (d : dict) (key : string) : bool :=
  existsb (fun kv => String.eqb kv.1 key) d.

(** [d[key]] *)
Fixpoint item (d : dict) (key : string) : result pyval :=
  match d with
  | [] => Raise (KeyError key)
  | (k, v) :: d' => if String.eqb k key then Ok v else item d' key
  end.

(** [indian_cities]: latitude and longitude of each city, in the order of
    the source. *)
Definition indian_cities : list (text * (Q * Q)) :=
  [ (T "delhi", (286139 # 10000, 772090 # 10000));
    (T "mumbai", (190760 # 10000, 728777 # 10000));
    (T "bangalore", (129716 # 10000, 775946 # 10000));
    (T "chennai", (130827 # 10000, 802707 # 10000));
    (T "kolkata", (225726 # 10000, 883639 # 10000));
    (T "hyderabad", (173850 # 10000, 784867 # 10000));
    (T "pune", (185204 # 10000, 738567 # 10000));
    (T "ahmedabad", (230225 # 10000, 725714 # 10000));
    (T "jaipur", (269124 # 10000, 757873 # 10000));
    (T "lucknow", (268467 # 10000, 809462 # 10000));
    (T "kanpur", (264499 # 10000, 803319 # 10000));
    (T "nagpur", (211458 # 10000, 790882 # 10000));
    (T "indore", (227196 # 10000, 758577 # 10000));
    (T "thane", (192183 # 10000, 729781 # 10000));
    (T "bhopal", (232599 # 10000, 774126 # 10000));
    (T "visakhapatnam", (176868 # 10000, 832185 # 10000));
    (T "patna", (255941 # 10000, 851376 # 10000));
    (T "vadodara", (223072 # 10000, 731812 # 10000));
    (T "ghaziabad", (286654 # 10000, 774391 # 10000));
    (T "ludhiana", (309010 # 10000, 758573 # 10000)) ]%Q.

(** [self.indian_cities[city_lower]], when the key is there. *)
Definition coordinates (city_lower : text) : option (Q * Q) :=
  snd <$> List.find (fun entry => text_eqb entry.1 city_lower) indian_cities.

Definition not_found (city : text) : dict :=
  [("error"%string, VStr (T "City " ++ city ++ T " not found in Indian cities database"));
   ("available_cities"%string, VList (map (fun entry => VStr entry.1) indian_cities))].

(** Lines 123-152.  [get_weather_by_coordinates] is the lookup by latitude
    and longitude of lines 84-121, which sends the request to the weather
    API and returns a dictionary or raises. *)
Definition get_aqi_info (get_weather_by_coordinates : Q -> Q -> result dict)
  (city : text) : dict :=
  let city_lower := lower city in
  match coordinates city_lower with
  | Some (lat, lon) =>
      match bind (get_weather_by_coordinates lat lon) (fun weather_data =>
            bind (item weather_data "city") (fun weather_city =>
            Ok [("city"%string, weather_city);
                ("weather_data"%string, VDict weather_data);
                ("aqi_note"%string, VStr "AQI data requires separate API integration");
                ("suggested_aqi_apis"%string,
                 VList [VStr "AirVisual API";
                        VStr "WAQI (World Air Quality Index)";
                        VStr "OpenWeatherMap Air Pollution API"])]))
      with
      | Ok aqi_info => aqi_info
      | Raise e => [("error"%string, VStr (T "Error getting AQI data: " ++ str e))]
      end
  | None => not_found city
  end.

(** The city is one of the twenty, in any letter case. *)
Definition is_indian (city : text) : bool :=
  match coordinates (lower city) with Some _ => true | None => false end.

End WeatherAPI.

(** ** ai_pipeline.py: the nodes and the graph *)

Module Graph.
Import PyStr Py WeatherAPI.

(** [AgentState] with the types its declaration gives to the keys:
    dictionaries for [weather_data] and [evaluation], a list of
    dictionaries for [retrieved_docs]. *)
Record State := {
  user_query : text;
  query_type : text;
  weather_data : dict;
  retrieved_docs : list dict;
  response : text;
  evaluation : dict
}.

(** What the nodes call: the weather lookups, the vector search, the two
    methods of the language-model service, and Python's [str()] on values
    that are not strings. *)
Record services := {
  get_weather_by_city : text -> result dict;
  get_weather_by_coordinates : Q -> Q -> result dict;
  search : text -> Z -> result (list dict);
  process_weather_query : dict -> text -> result text;
  process_rag_query : list dict -> text -> result text;
  str_of : pyval -> text
}.

Definition initial_state (user_query : text) : State :=
  {| user_query := user_query; query_type := []; weather_data := [];
     retrieved_docs := []; response := []; evaluation := [] |}.

Definition _classify_query (state : State) : State :=
  let query := lower (user_query state) in
  let is_weather_query := any_in AIPipeline.weather_keywords query in
  {| user_query := user_query state;
     query_type := if is_weather_query then T "weather" else T "rag";
     weather_data := weather_data state;
     retrieved_docs := retrieved_docs state;
     response := response state;
     evaluation := evaluation state |}.

Definition set_weather_data (state : State) (data : dict) : State :=
  {| user_query := user_query state; query_type := query_type state;
     weather_data := data; retrieved_docs := retrieved_docs state;
     response := response state; evaluation := evaluation state |}.

Definition set_retrieved_docs (state : State) (docs : list dict) : State :=
  {| user_query := user_query state; query_type := query_type state;
     weather_data := weather_data state; retrieved_docs := docs;
     response := response state; evaluation := evaluation state |}.

Definition set_response (state : State) (r : text) : State :=
  {| user_query := user_query state; query_type := query_type state;
     weather_data := weather_data state; retrieved_docs := retrieved_docs state;
     response := r; evaluation := evaluation state |}.

Definition set_evaluation (state : State) (ev : dict) : State :=
  {| user_query := user_query state; query_type := query_type state;
     weather_data := weather_data state; retrieved_docs := retrieved_docs state;
     response := response state; evaluation := ev |}.

(** The lookup [_get_weather] makes, with its result. *)
Definition fetch (svc : services) (c : AIPipeline.weather_call) : result dict :=
  match c with
  | AIPipeline.AqiInfo city => Ok (get_aqi_info (get_weather_by_coordinates svc) city)
  | AIPipeline.WeatherByCity city => get_weather_by_city svc city
  end.

(** Lines 95-132. *)
Definition _get_weather (svc : services) (state : State) : State :=
  match fetch svc (AIPipeline.weather_request (user_query state)) with
  | Ok data => set_weather_data state data
  | Raise e => set_weather_data state [("error"%string, VStr (str e))]
  end.

(** Lines 134-146. *)
Definition _get_rag_response (svc : services) (state : State) : State :=
  match search svc (user_query state) 3 with
  | Ok docs => set_retrieved_docs state docs
  | Raise e =>
      set_retrieved_docs state
        [[("content"%string, VStr (T "Error retrieving documents: " ++ str e))]]
  end.

(** A value inside an f-string. *)
Definition format_value (svc : services) (v : pyval) : text :=
  match v with
  | VStr s => s
  | _ => str_of svc v
  end.

Definition no_information : text :=
  "I don't have enough information in my knowledge base to answer this question. Please upload a PDF document first.".

(** Lines 148-176. *)
Definition _generate_response (svc : services) (state : State) : State :=
  let query := user_query state in
  let body : result text :=
    if text_eqb (query_type state) "weather" then
      if has_key (weather_data state) "error" then
        bind (item (weather_data state) "error") (fun err =>
        Ok (T "Sorry, I couldn't get weather information: " ++ format_value svc err))
      else process_weather_query svc (weather_data state) query
    else if text_eqb (query_type state) "rag" then
      match retrieved_docs state with
      | [] => Ok no_information
      | first :: _ =>
          if has_key first "error" then Ok no_information
          else process_rag_query svc (retrieved_docs state) query
      end
    else Ok (T "I'm not sure how to handle this type of query.")
  in
  match body with
  | Ok r => set_response state r
  | Raise e => set_response state (T "Error generating response: " ++ str e)
  end.

(** The dictionary returned by [evaluate_response]. *)
Definition evaluation_dict (ev : EvaluationService.evaluation) : dict :=
  [("accuracy"%string, VInt (EvaluationService.accuracy ev));
   ("relevance"%string, VInt (EvaluationService.relevance ev));
   ("completeness"%string, VInt (EvaluationService.completeness ev));
   ("clarity"%string, VInt (EvaluationService.clarity ev));
   ("overall_score"%string, VNum (EvaluationService.overall_score ev));
   ("feedback"%string, VList (map VStr (EvaluationService.feedback ev)))].

(** Lines 178-191; [evaluate_response] does not raise. *)
Definition _evaluate_response (state : State) : State :=
  set_evaluation state
    (evaluation_dict
       (EvaluationService.evaluate_response (user_query state) (response state)
          (query_type state))).

(** Lines 33-67: the compiled graph.  From the entry point
    [classify_query] the conditional edge goes to [get_weather] or to
    [get_rag_response] by the value of [query_type], then to
    [generate_response], [evaluate_response] and the end. *)
Definition run (svc : services) (state : State) : State :=
  let classified := _classify_query state in
  let retrieved :=
    if text_eqb (query_type classified) "weather"
    then _get_weather svc classified
    else _get_rag_response svc classified in
  _evaluate_response (_generate_response svc retrieved).

(** The final state as [process_query] reads it. *)
Definition agent_state (state : State) : AIPipeline.AgentState :=
  {| AIPipeline.user_query := user_query state;
     AIPipeline.query_type := query_type state;
     AIPipeline.weather_data := VDict (weather_data state);
     AIPipeline.retrieved_docs := VList (map VDict (retrieved_docs state));
     AIPipeline.response := response state;
     AIPipeline.evaluation := VDict (evaluation state) |}.

(** [graph.invoke] on the initial state of a query. *)
Definition invoke (svc : services) (initial : AIPipeline.AgentState)
  : result AIPipeline.AgentState :=
  Ok (agent_state (run svc (initial_state (AIPipeline.user_query initial)))).

(** The answer of the pipeline to a query. *)
Definition answer_to (svc : services) (query : text) : State :=
  run svc (initial_state query).

(** Two sets of services that agree on the weather side. *)
Definition same_weather_services (a b : services) : Prop :=
  get_weather_by_city a = get_weather_by_city b
  /\ get_weather_by_coordinates a = get_weather_by_coordinates b
  /\ process_weather_query a = process_weather_query b
  /\ str_of a = str_of b.

(** Two sets of services that agree on the document side. *)
Definition same_document_services (a b : services) : Prop :=
  search a = search b /\ process_rag_query a = process_rag_query b.

(** Services for examples: no weather API, an empty index, a model that
    echoes the query. *)
Definition sample_services : services :=
  {| get_weather_by_city := fun _ => Raise (Exception "Weather API request failed: timeout");
     get_weather_by_coordinates := fun _ _ =>
       Raise (Exception "Weather API request failed: timeout");
     search := fun _ _ => Ok [];
     process_weather_query := fun _ q => Ok q;
     process_rag_query := fun _ q => Ok q;
     str_of := fun _ => [] |}.

(** Services whose vector search fails. *)
Definition sample_services_search_down : services :=
  {| get_weather_by_city := fun _ => Raise (Exception "Weather API request failed: timeout");
     get_weather_by_coordinates := fun _ _ =>
       Raise (Exception "Weather API request failed: timeout");
     search := fun _ _ => Raise (Exception "connection refused");
     process_weather_query := fun _ q => Ok q;
     process_rag_query := fun _ q => Ok q;
     str_of := fun _ => [] |}.

(** Services whose weather API answers. *)
Definition sample_services_weather_up : services :=
  {| get_weather_by_city := fun city => Ok [("city"%string, VStr city)];
     get_weather_by_coordinates := fun _ _ => Ok [("city"%string, VStr "Delhi")];
     search := fun _ _ => Ok [];
     process_weather_query := fun _ _ => Ok (T "It is sunny.");
     process_rag_query := fun _ q => Ok q;
     str_of := fun _ => [] |}.

End Graph.
Import PyStr PDFProcessor Py.

(** * Properties *)

(** ** Strings *)

Lemma lstrip_length (s : text) : (length (lstrip s) <= length s)%nat.
Proof.
  induction s as [|c s IH]; simpl; [lia|].
  destruct (isspace c); simpl; lia.
Qed.



Lemma startswith_length (p s : text) :
  startswith p s = true -> (length p <= length s)%nat.
Proof.
  revert s. induction p as [|a p IH]; intros [|b s]; simpl; try lia; try discriminate.
  destruct (Ascii.eqb a b); [|discriminate]. intros H. apply IH in H. lia.
Qed.

Lemma find_last_bounds (sub s : text) (i k : nat) :
  find_last sub s i = Some k -> (i <= k /\ k + length sub <= i + length s)%nat.
Proof.
  revert i. induction s as [|c s IH]; intros i; simpl.
  - destruct sub; simpl; [|discriminate]. intros [= <-]. lia.
  - destruct (find_last sub s (S i)) as [k'|] eqn:E.
    + intros [= <-]. apply IH in E. lia.
    + destruct (startswith sub (c :: s)) eqn:Es; [|discriminate].
      intros [= <-]. apply startswith_length in Es. simpl in Es. lia.
Qed.


Lemma slice_length (s : text) (start stop : Z) :
  len (slice s start stop) <= Z.max 0 (adjust (len s) stop - adjust (len s) start).
Proof.
  unfold slice, len. rewrite length_take, length_drop. lia.
Qed.

(** A match found by [rfind] lies inside the searched slice. *)
Lemma rfind_bounds (s sub : text) (start stop : Z) :
  rfind s sub start stop = -1 \/
  (adjust (len s) start <= rfind s sub start stop /\
   rfind s sub start stop + len sub
     <= adjust (len s) start + len (slice s start stop)).
Proof.
  unfold rfind.
  destruct (find_last sub (slice s start stop) 0) as [k|] eqn:E; [right|left; reflexivity].
  apply find_last_bounds in E. unfold len in *. lia.
Qed.

(** ** The chunker *)





(** From a non-negative start the window ends at [start + chunk_size], or
    just after a period in the second half of the window. *)
Lemma window_end_range (t : text) (chunk_size start : Z) :
  0 <= start -> 0 < chunk_size ->
  window_end t chunk_size start = start + chunk_size \/
  start + chunk_size / 2 + 2 <= window_end t chunk_size start <= start + chunk_size.
Proof.
  intros Hs Hsz. unfold window_end.
  destruct (Z.ltb_spec (start + chunk_size) (len t)) as [Hlt|Hge]; [|by left].
  destruct (Z.ltb_spec (start + chunk_size / 2) (rfind t "." start (start + chunk_size)))
    as [Hr|Hr]; [right|by left].
  assert (0 <= chunk_size / 2) by (apply Z.div_pos; lia).
  destruct (rfind_bounds t "." start (start + chunk_size)) as [E|[Hlo Hhi]]; [lia|].
  pose proof (slice_length t start (start + chunk_size)) as Hl.
  change (len (T ".")) with 1 in Hhi.
  unfold adjust in Hhi, Hl.
  destruct (Z.ltb_spec start 0); [lia|].
  destruct (Z.ltb_spec (start + chunk_size) 0); lia.
Qed.

(** The sentence-boundary shrink only moves the end of a window earlier. *)
Lemma window_end_le (t : text) (chunk_size start : Z) :
  0 <= start -> 0 < chunk_size ->
  window_end t chunk_size start <= start + chunk_size.
Proof.
  intros Hs Hsz. destruct (window_end_range t chunk_size start Hs Hsz) as [->|[_ H]]; lia.
Qed.

Lemma window_end_advances (t : text) (chunk_size overlap start : Z) :
  advancing chunk_size overlap -> 0 <= start ->
  start < window_end t chunk_size start - overlap.
Proof.
  intros (Hsz & Hov & Hhalf) Hs.
  destruct (window_end_range t chunk_size start Hs Hsz) as [->|[Hlo _]]; lia.
Qed.

Lemma window_loop_total (fuel : nat) (t : text) (chunk_size overlap start : Z) :
  advancing chunk_size overlap -> 0 <= start ->
  (Z.to_nat (len t - start) <= fuel)%nat ->
  is_Some (window_loop fuel t chunk_size overlap start).
Proof.
  intros Hadv. revert start. induction fuel as [|fuel IH]; intros start Hs Hfuel; simpl.
  - destruct (Z.ltb_spec start (len t)); [lia|]. by eexists.
  - destruct (Z.ltb_spec start (len t)); [|by eexists].
    pose proof (window_end_advances t chunk_size overlap start Hadv Hs) as Hmove.
    destruct (IH (window_end t chunk_size start - overlap)) as [ws Hws]; [lia|lia|].
    rewrite Hws. by eexists.
Qed.

(** The chunks are the trimmed non-empty windows. *)
Lemma chunk_loop_windows (fuel : nat) (t : text) (chunk_size overlap : Z)
  (st : chunk_state) :
  chunk_loop fuel t chunk_size overlap st =
  option_map (fun ws => cs_chunks st ++ chunks_of_windows ws)
    (window_loop fuel t chunk_size overlap (cs_start st)).
Proof.
  revert st. induction fuel as [|fuel IH]; intros st; simpl.
  - destruct (cs_start st <? len t); simpl; [done|].
    unfold chunks_of_windows; simpl. by rewrite app_nil_r.
  - destruct (cs_start st <? len t); simpl;
      [|unfold chunks_of_windows; simpl; by rewrite app_nil_r].
    set (e := window_end t chunk_size (cs_start st)).
    assert (Hstep : forall ws,
      cs_chunks (chunk_body t chunk_size overlap st) ++ chunks_of_windows ws
      = cs_chunks st ++ chunks_of_windows (slice t (cs_start st) e :: ws)).
    { intros ws. unfold chunk_body, chunks_of_windows; simpl. fold e.
      rewrite filter_cons.
      destruct (strip (slice t (cs_start st) e)) eqn:Ec; simpl.
      - by destruct (decide (false = true)).
      - destruct (decide (true = true)); [|done]. by rewrite <- app_assoc. }
    destruct (Z.leb_spec (len t) (e - overlap)) as [Hout|Hin].
    + destruct fuel; simpl.
      * destruct (Z.ltb_spec (e - overlap) (len t)); [lia|]. simpl.
        rewrite <- Hstep. unfold chunks_of_windows; simpl. by rewrite app_nil_r.
      * destruct (Z.ltb_spec (e - overlap) (len t)); [lia|]. simpl.
        rewrite <- Hstep. unfold chunks_of_windows; simpl. by rewrite app_nil_r.
    + rewrite IH. simpl. fold e.
      destruct (window_loop fuel t chunk_size overlap (e - overlap)); simpl; [|done].
      by rewrite Hstep.
Qed.

Lemma chunk_loop_total (fuel : nat) (t : text) (chunk_size overlap : Z) :
  advancing chunk_size overlap -> (length t <= fuel)%nat ->
  is_Some (chunk_loop fuel t chunk_size overlap {| cs_start := 0; cs_chunks := [] |}).
Proof.
  intros Hadv Hfuel. rewrite chunk_loop_windows. simpl.
  destruct (window_loop_total fuel t chunk_size overlap 0 Hadv) as [ws ->];
    [lia|unfold len; lia|]. by eexists.
Qed.




Lemma chunk_text_total (fuel : nat) (s : text) (chunk_size overlap : Z) :
  advancing chunk_size overlap -> (length (normalize s) <= fuel)%nat ->
  is_Some (chunk_text fuel s chunk_size overlap).
Proof.
  intros Hadv Hfuel. unfold chunk_text. destruct (truthy s); [|by eexists].
  by apply chunk_loop_total.
Qed.

Lemma chunk_text_empty (fuel : nat) (chunk_size overlap : Z) :
  chunk_text fuel "" chunk_size overlap = Some [].
Proof. reflexivity. Qed.

(** *** Trimming is idempotent *)

Lemma lstrip_suffix (s : text) :
  exists ws, s = ws ++ lstrip s /\ forallb isspace ws = true.
Proof.
  induction s as [|c s (ws & E & Hws)]; simpl; [by exists []|].
  destruct (isspace c) eqn:Ec.
  - exists (c :: ws). simpl. rewrite Ec, Hws. split; [by f_equal|done].
  - by exists [].
Qed.

Lemma lstrip_fixed_head (c : ascii) (s : text) :
  lstrip (c :: s) = c :: s -> isspace c = false.
Proof.
  simpl. destruct (isspace c); [|done]. intros E.
  pose proof (lstrip_length s) as Hl. rewrite E in Hl. simpl in Hl. lia.
Qed.

Lemma lstrip_idem (s : text) : lstrip (lstrip s) = lstrip s.
Proof.
  induction s as [|c s IH]; simpl; [done|].
  destruct (isspace c) eqn:Ec; [done|]. simpl. by rewrite Ec.
Qed.

Lemma rstrip_prefix (s : text) : exists ws, s = rstrip s ++ ws.
Proof.
  destruct (lstrip_suffix (rev s)) as (ws & E & _).
  exists (rev ws). unfold rstrip. rewrite <- rev_app_distr, <- E. by rewrite rev_involutive.
Qed.

Lemma lstrip_rstrip (s : text) : lstrip s = s -> lstrip (rstrip s) = rstrip s.
Proof.
  intros Hs. destruct (rstrip_prefix s) as (ws & E).
  destruct (rstrip s) as [|c v] eqn:Ev; [done|].
  rewrite E in Hs. simpl in Hs. apply lstrip_fixed_head in Hs.
  simpl. by rewrite Hs.
Qed.

Lemma rstrip_idem (s : text) : rstrip (rstrip s) = rstrip s.
Proof. unfold rstrip. by rewrite rev_involutive, lstrip_idem. Qed.

Lemma strip_idem (s : text) : strip (strip s) = strip s.
Proof.
  unfold strip. rewrite (lstrip_rstrip (lstrip s)) by apply lstrip_idem.
  apply rstrip_idem.
Qed.


(** *** Termination, short texts, round trip and chunk length *)

Lemma chunk_body_cycle (cs : list text) :
  chunk_body "aaaaaa.aaaaaaaaaaaaa" 10 7 {| cs_start := 0; cs_chunks := cs |}
  = {| cs_start := 0; cs_chunks := cs ++ [T "aaaaaa."] |}.
Proof. reflexivity. Qed.

(** C1 (fails on the code): with chunk_size = 10 and overlap = 7 < chunk_size,
    the text "aaaaaa.aaaaaaaaaaaaa" makes the window end just after the
    period at index 6, so the next start is 7 - 7 = 0 again: the loop never
    reaches its end, whatever the number of iterations allowed. *)
Theorem chunk_text_overlap_diverges :
  forall fuel : nat, chunk_text fuel "aaaaaa.aaaaaaaaaaaaa" 10 7 = None.
Proof.
  intros fuel. unfold chunk_text. simpl truthy. cbv iota.
  change (normalize "aaaaaa.aaaaaaaaaaaaa") with (T "aaaaaa.aaaaaaaaaaaaa").
  generalize (@nil text). induction fuel as [|fuel IH]; intros cs; [reflexivity|].
  cbn [chunk_loop]. rewrite chunk_body_cycle.
  change (cs_start {| cs_start := 0; cs_chunks := cs |} <? len (T "aaaaaa.aaaaaaaaaaaaa"))
    with true.
  cbv iota. cbn [cs_start cs_chunks].
  change (len (T "aaaaaa.aaaaaaaaaaaaa") <=? 0) with false. cbv iota.
  apply IH.
Qed.

(** C2 (fails on the code): "hello world" has 11 characters and chunk_size
    is 12, yet with overlap = 5 the loop goes on from start 7 and emits the
    tail "orld" as a second chunk. *)
Theorem chunk_text_short_text_second_chunk :
  chunk_text 2 "hello world" 12 5 = Some [T "hello world"; T "orld"].
Proof. vm_compute. reflexivity. Qed.

(** With the default chunk_size = 1000 and overlap = 200, a text of 900
    characters comes back as two chunks, the second one being its last 100
    characters. *)
Lemma chunk_text_defaults_second_chunk :
  chunk_text 2 (repeat "a"%char 900) 1000 200
  = Some [repeat "a"%char 900; repeat "a"%char 100].
Proof. vm_compute. reflexivity. Qed.






(** ** The evaluator *)

Section Evaluator.
Import EvaluationService.

Lemma _evaluate_accuracy_range (q r t : text) : 1 <= _evaluate_accuracy q r t <= 5.
Proof.
  unfold _evaluate_accuracy.
  repeat match goal with |- context [if ?b then _ else _] => destruct b end; lia.
Qed.

Lemma _evaluate_relevance_range (q r t : text) : 1 <= _evaluate_relevance q r t <= 5.
Proof.
  unfold _evaluate_relevance. destruct (negb (truthy r)); [lia|].
  cbv zeta. destruct (Z.ltb_spec 0 (Z.of_nat (size
    ((list_to_set (findall_words (lower q)) : gset text)
       ∩ list_to_set (findall_words (lower r)))))); lia.
Qed.

Lemma _evaluate_completeness_range (q r t : text) :
  1 <= _evaluate_completeness q r t <= 5.
Proof.
  unfold _evaluate_completeness.
  repeat match goal with |- context [if ?b then _ else _] => destruct b end; lia.
Qed.

Lemma _evaluate_clarity_range (r : text) : 1 <= _evaluate_clarity r <= 5.
Proof.
  unfold _evaluate_clarity.
  repeat match goal with |- context [if ?b then _ else _] => destruct b end; lia.
Qed.

Lemma mean_of_four (a b c d : Z) : (mean [a; b; c; d] == inject_Z (a + b + c + d) / 4)%Q.
Proof.
  unfold mean, sum. simpl. replace (a + (b + (c + (d + 0)))) with (a + b + c + d) by lia.
  reflexivity.
Qed.

End Evaluator.

(** C6: the four sub-scores of [evaluate_response] are integers between 1
    and 5, and overall_score is their sum divided by four, as a rational,
    with no rounding. *)
Theorem evaluate_response_scores (user_query response query_type : text) :
  let ev := EvaluationService.evaluate_response user_query response query_type in
  1 <= EvaluationService.accuracy ev <= 5
  /\ 1 <= EvaluationService.relevance ev <= 5
  /\ 1 <= EvaluationService.completeness ev <= 5
  /\ 1 <= EvaluationService.clarity ev <= 5
  /\ (EvaluationService.overall_score ev ==
      inject_Z (EvaluationService.accuracy ev + EvaluationService.relevance ev
                + EvaluationService.completeness ev + EvaluationService.clarity ev)
      / 4)%Q.
Proof.
  cbv zeta. unfold EvaluationService.evaluate_response. cbn [EvaluationService.accuracy
    EvaluationService.relevance EvaluationService.completeness EvaluationService.clarity
    EvaluationService.overall_score].
  split; [apply _evaluate_accuracy_range|].
  split; [apply _evaluate_relevance_range|].
  split; [apply _evaluate_completeness_range|].
  split; [apply _evaluate_clarity_range|].
  apply mean_of_four.
Qed.

(** *** Whitespace-only responses *)


Lemma lstrip_spaces (s : text) : forallb isspace s = true -> lstrip s = [].
Proof.
  induction s as [|c s IH]; simpl; [done|].
  destruct (isspace c); simpl; [exact IH|discriminate].
Qed.

Lemma strip_spaces (s : text) : forallb isspace s = true -> strip s = [].
Proof. intros H. unfold strip. by rewrite lstrip_spaces. Qed.






(** ** The query classifier *)

Lemma any_in_spec (words : list text) (s : text) :
  any_in words s = true <-> exists w, In w words /\ contains w s = true.
Proof. unfold any_in. apply existsb_exists. Qed.

(** C3 (as stated, fails): a query without weather keyword gets the type
    "rag", not "document". *)
Lemma classify_query_label_is_rag :
  any_in AIPipeline.weather_keywords (lower "Explain the AutoGen framework") = false
  /\ AIPipeline.query_type
       (AIPipeline._classify_query
          (AIPipeline.initial_state "Explain the AutoGen framework"))
     <> T "document".
Proof. split; [vm_compute; reflexivity|vm_compute; discriminate]. Qed.

(** C3 (amended): [_classify_query] sets query_type to "weather" exactly
    when the lower-cased text contains at least one of the weather
    keywords, and to "rag" for all other texts. *)
Theorem classify_query_weather_or_rag (state : AIPipeline.AgentState) :
  let has_keyword :=
    exists kw, In kw AIPipeline.weather_keywords
               /\ contains kw (lower (AIPipeline.user_query state)) = true in
  (AIPipeline.query_type (AIPipeline._classify_query state) = T "weather"
   <-> has_keyword)
  /\ (AIPipeline.query_type (AIPipeline._classify_query state) = T "rag"
      <-> ~ has_keyword).
Proof.
  cbv zeta. rewrite <- any_in_spec. unfold AIPipeline._classify_query.
  cbn [AIPipeline.query_type].
  destruct (any_in AIPipeline.weather_keywords (lower (AIPipeline.user_query state))).
  - split; split; try done; intros H; by destruct H.
  - split; split; try done; intros H; by destruct H.
Qed.

(** ** City extraction *)

Section City.
Import AIPipeline.








Lemma first_city_nonempty (q city : text) :
  first_city q = Some city -> city <> [].
Proof.
  intros H. apply find_some in H as [Hin _].
  assert (Hall : forallb truthy cities = true) by reflexivity.
  rewrite forallb_forall in Hall. apply Hall in Hin. by destruct city.
Qed.

(** Every Indian city of the weather service is in the gazetteer, so a
    query in which no gazetteer city occurs names no Indian city. *)
Lemma no_city_no_indian_city (q : text) :
  first_city q = None ->
  any_in WeatherService.get_indian_cities_list q = false.
Proof.
  intros Hnone. destruct (any_in _ q) eqn:E; [|done].
  apply any_in_spec in E as (c & Hc & Hin).
  assert (Hsplit : cities = take 21 cities ++ WeatherService.get_indian_cities_list)
    by reflexivity.
  assert (Hgaz : In c cities) by (rewrite Hsplit; apply in_or_app; by right).
  pose proof (find_none _ _ Hnone c Hgaz) as Hf. cbv beta in Hf. congruence.
Qed.

(** When no city is extracted the lookup is made for London. *)
Lemma default_city_is_london (q : text) :
  _extract_city_from_query q = [] -> call_city (weather_request q) = T "London".
Proof.
  intros Hex. unfold weather_request. rewrite Hex. simpl truthy. cbv iota.
  unfold _extract_city_from_query in Hex.
  destruct (first_city (lower q)) as [city|] eqn:Ec.
  - apply first_city_nonempty in Ec. by destruct city.
  - rewrite (no_city_no_indian_city _ Ec).
    by destruct (any_in _ (lower q)).
Qed.

End City.


(** ** The query entry point *)

(** C5: whatever the graph run does, return a state or raise,
    [process_query] returns a dictionary: the answer built from the final
    state, or, when the run raised, a dictionary with the error message,
    the query and the apology as response. *)
Theorem process_query_never_raises
  (invoke : AIPipeline.AgentState -> result AIPipeline.AgentState) (user_query : text) :
  (exists d, AIPipeline.process_query invoke user_query = Ok d)
  /\ match invoke (AIPipeline.initial_state user_query) with
     | Ok final => AIPipeline.process_query invoke user_query = Ok (AIPipeline.answer final)
     | Raise e =>
         exists d, AIPipeline.process_query invoke user_query = Ok d
           /\ d !! "error"%string = Some (VStr (T "Pipeline error: " ++ str e))
           /\ d !! "query"%string = Some (VStr user_query)
           /\ d !! "response"%string = Some (VStr AIPipeline.apology)
     end.
Proof.
  unfold AIPipeline.process_query.
  destruct (invoke (AIPipeline.initial_state user_query)) as [final|e]; simpl.
  - split; [by eexists|done].
  - split; [by eexists|]. eexists. split; [done|].
    unfold AIPipeline.failure. repeat split; reflexivity.
Qed.

(** ** Ingestion into the vector store *)

Section Store.
Import VectorStore.

Lemma contents_length (documents : list document) (texts : list pyval) :
  contents documents = Ok texts -> length texts = length documents.
Proof.
  revert texts. induction documents as [|d ds IH]; intros texts; simpl.
  - by intros [= <-].
  - destruct (getitem d "content") as [c|]; simpl; [|discriminate].
    destruct (contents ds) as [cs|]; simpl; [|discriminate].
    intros [= <-]. simpl. f_equal. by apply IH.
Qed.

Lemma contents_total (documents : list document) :
  Forall (fun d => is_Some (VectorStore.content_of d)) documents ->
  exists texts, contents documents = Ok texts.
Proof.
  induction 1 as [|d ds [c Hc] _ (cs & IH)]; simpl; [by eexists|].
  unfold getitem. unfold VectorStore.content_of in Hc. rewrite Hc. simpl. rewrite IH. simpl.
  by eexists.
Qed.

(** The points built from the pairs: one per pair and in their order,
    with the identifiers drawn in sequence, and no request sent. *)
Lemma make_points_spec (b : backend) (pairs : list (document * embedding))
  (w w' : world) (points : list PointStruct) :
  make_points b pairs w = (Ok points, w') ->
  map id points = map (uuid4 b) (seq (drawn w) (length pairs))
  /\ map (fun p => payload p !! "content"%string) points
     = map (fun pr => VectorStore.content_of pr.1) pairs
  /\ calls w' = calls w.
Proof.
  revert w points. induction pairs as [|[doc emb] rest IH]; intros w points; simpl.
  - unfold ret. by intros [= <- <-].
  - unfold mbind, call_uuid4, lift, ret, getitem.
    destruct (doc !! "content"%string) as [c|] eqn:Ec; [|discriminate].
    destruct (make_points b rest {| drawn := S (drawn w); calls := calls w |})
      as [[pts|e] w1] eqn:E; [|discriminate].
    intros [= <- <-]. apply IH in E as (Hids & Hcont & Hcalls). simpl in *.
    rewrite Hids, Hcont. split; [done|]. split; [|done].
    f_equal. unfold content_of. rewrite Ec. apply lookup_insert_eq.
Qed.

Lemma make_points_total (b : backend) (pairs : list (document * embedding)) (w : world) :
  Forall (fun pr => is_Some (VectorStore.content_of pr.1)) pairs ->
  exists points w', make_points b pairs w = (Ok points, w').
Proof.
  intros Hall. revert w. induction Hall as [|[doc emb] rest [c Hc] _ IH]; intros w; simpl.
  - by repeat eexists.
  - unfold mbind, call_uuid4, lift, ret, getitem.
    simpl in Hc. unfold VectorStore.content_of in Hc. rewrite Hc.
    destruct (IH {| drawn := S (drawn w); calls := calls w |}) as (pts & w1 & ->).
    by repeat eexists.
Qed.

Lemma zip_contents (documents : list document) (es : list embedding) :
  length es = length documents ->
  map (fun pr => content_of pr.1) (zip documents es) = map content_of documents.
Proof.
  revert es. induction documents as [|d ds IH]; intros [|e es]; simpl; try done.
  intros [= H]. f_equal. by apply IH.
Qed.

End Store.

(** C10: when the embedding provider answers with one vector per text,
    - [add_documents] on the empty list returns the empty list and leaves
      the world as it was: no request to the provider or to the store;
    - whenever it returns, the identifiers are as many as the documents and
      in their order: the i-th one is the i-th identifier drawn, carried by
      the i-th point sent to the store, whose content is that of the i-th
      document;
    - it does return when every document has a content and the provider
      and the store accept their requests. *)
Theorem add_documents_one_id_per_document (b : VectorStore.backend) (w : VectorStore.world) :
  VectorStore.embeds_each b ->
  VectorStore.add_documents b [] w = (Ok [], w)
  /\ (forall documents ids w',
        VectorStore.add_documents b documents w = (Ok ids, w') ->
        length ids = length documents
        /\ ids = map (VectorStore.uuid4 b)
                   (seq (VectorStore.drawn w) (length documents))
        /\ (documents <> [] ->
            exists texts points,
              VectorStore.calls w'
              = VectorStore.calls w
                  ++ [VectorStore.EmbedDocuments texts;
                      VectorStore.Upsert (VectorStore.collection_name b) points]
              /\ map VectorStore.id points = ids
              /\ map (fun p => VectorStore.payload p !! "content"%string) points
                 = map VectorStore.content_of documents))
  /\ (forall documents,
        Forall (fun d => is_Some (VectorStore.content_of d)) documents ->
        (forall texts, exists es, VectorStore.embed_documents b texts = Ok es) ->
        (forall points,
           VectorStore.upsert b (VectorStore.collection_name b) points = Ok tt) ->
        exists ids w', VectorStore.add_documents b documents w = (Ok ids, w')).
Proof.
  intros Hembed. split; [reflexivity|]. split.
  - intros documents ids w'. destruct documents as [|d ds]; [by intros [= <- <-]|].
    unfold VectorStore.add_documents. cbv iota. set (documents := d :: ds).
    unfold VectorStore.try_with, VectorStore.mbind, VectorStore.lift,
      VectorStore.call_embed, VectorStore.call_upsert, VectorStore.ret,
      VectorStore.raise.
    cbv beta.
    destruct (VectorStore.contents documents) as [texts|] eqn:Et; [|discriminate].
    cbv beta iota.
    destruct (VectorStore.embed_documents b texts) as [es|] eqn:Ee; [|discriminate].
    cbv beta iota.
    match goal with
    | |- context [VectorStore.make_points b ?ps ?w0] =>
        destruct (VectorStore.make_points b ps w0) as [[points|] w1] eqn:Ep
    end; [|discriminate].
    cbv beta iota.
    destruct (VectorStore.upsert b (VectorStore.collection_name b) points) as [[]|] eqn:Eu;
      [|discriminate].
    intros [= <- <-].
    apply Hembed in Ee. apply contents_length in Et.
    assert (Hlen : length es = length documents) by congruence.
    apply make_points_spec in Ep as (Hids & Hcont & Hcalls).
    cbn [VectorStore.drawn VectorStore.calls] in Hids, Hcalls.
    rewrite length_zip_with, Hlen, Nat.min_id in Hids.
    rewrite zip_contents in Hcont by done.
    split; [|split].
    + rewrite Hids, length_map, length_seq. done.
    + exact Hids.
    + intros _. exists texts, points. simpl. rewrite Hcalls, <- app_assoc. done.
  - intros documents Hall Hprov Hstore. destruct documents as [|d ds]; [by repeat eexists|].
    unfold VectorStore.add_documents. cbv iota. set (documents := d :: ds) in *.
    unfold VectorStore.try_with, VectorStore.mbind, VectorStore.lift,
      VectorStore.call_embed, VectorStore.call_upsert, VectorStore.ret,
      VectorStore.raise.
    cbv beta.
    destruct (contents_total documents Hall) as [texts ->]. cbv beta iota.
    destruct (Hprov texts) as [es ->]. cbv beta iota.
    edestruct (make_points_total b (zip documents es)) as (points & w1 & ->).
    { apply Forall_forall. intros [doc e] Hin. simpl.
      rewrite Forall_forall in Hall. apply Hall.
      by apply elem_of_zip_l in Hin. }
    rewrite Hstore. by repeat eexists.
Qed.

(** Two documents sent to the sample backend come back with two ids. *)
Lemma add_documents_one_id_per_document_witness :
  VectorStore.embeds_each VectorStore.sample_backend
  /\ exists ids w',
       VectorStore.add_documents VectorStore.sample_backend VectorStore.sample_documents
         {| VectorStore.drawn := 0; VectorStore.calls := [] |} = (Ok ids, w')
       /\ length ids = length VectorStore.sample_documents.
Proof.
  assert (Hembed : VectorStore.embeds_each VectorStore.sample_backend).
  { intros texts es. simpl. intros [= <-]. apply length_map. }
  split; [exact Hembed|].
  destruct (add_documents_one_id_per_document VectorStore.sample_backend
              {| VectorStore.drawn := 0; VectorStore.calls := [] |} Hembed)
    as (_ & Hids & Hok).
  destruct (Hok VectorStore.sample_documents) as (ids & w' & E).
  - repeat constructor; by eexists.
  - intros texts. by eexists.
  - done.
  - exists ids, w'. split; [exact E|]. by destruct (Hids _ _ _ E) as (Hlen & _).
Defined.

(** * Further properties *)

(** ** Substrings *)

Section Substrings.
Import Chunks.

Lemma startswith_spec (p s : text) :
  startswith p s = true <-> exists r, s = p ++ r.
Proof.
  revert s. induction p as [|a p IH]; intros s; simpl.
  - split; [by exists s|done].
  - destruct s as [|b s]; [split; [done|by intros [r ?]]|].
    destruct (Ascii.eqb_spec a b) as [->|Hne].
    + rewrite IH. split; intros [r Hr]; exists r; [by rewrite Hr|by injection Hr].
    + split; [done|]. intros [r Hr]. injection Hr as <- _. done.
Qed.

Lemma contains_spec (sub s : text) : contains sub s = true <-> infix_of sub s.
Proof.
  unfold infix_of. induction s as [|c s IH]; simpl.
  - rewrite orb_false_r, startswith_spec. split.
    + intros [r Hr]. by exists [], r.
    + intros (l1 & l2 & H). destruct l1; [by exists l2|done].
  - rewrite orb_true_iff, startswith_spec, IH. split.
    + intros [[r Hr]|(l1 & l2 & H)]; [by exists [], r|].
      exists (c :: l1), l2. by rewrite H.
    + intros (l1 & l2 & H). destruct l1 as [|a l1]; [left; by exists l2|].
      right. injection H as _ H. by exists l1, l2.
Qed.

Lemma infix_of_refl (t : text) : infix_of t t.
Proof. exists [], []. by rewrite app_nil_r. Qed.

Lemma infix_of_trans (a b c : text) : infix_of a b -> infix_of b c -> infix_of a c.
Proof.
  intros (l1 & l2 & ->) (k1 & k2 & ->). exists (k1 ++ l1), (l2 ++ k2).
  by rewrite <- !app_assoc.
Qed.

Lemma contains_trans (a b c : text) :
  contains a b = true -> contains b c = true -> contains a c = true.
Proof. rewrite !contains_spec. apply infix_of_trans. Qed.

Lemma slice_infix (t : text) (start stop : Z) : infix_of (slice t start stop) t.
Proof.
  unfold slice.
  set (i := Z.to_nat (adjust (len t) start)).
  set (n := Z.to_nat (adjust (len t) stop - adjust (len t) start)).
  exists (take i t), (drop n (drop i t)). by rewrite take_drop, take_drop.
Qed.

Lemma lstrip_infix (s : text) : infix_of (lstrip s) s.
Proof.
  destruct (lstrip_suffix s) as (ws & E & _). exists ws, []. by rewrite app_nil_r.
Qed.

Lemma rstrip_infix (s : text) : infix_of (rstrip s) s.
Proof. destruct (rstrip_prefix s) as (ws & E). by exists [], ws. Qed.

Lemma strip_infix (s : text) : infix_of (strip s) s.
Proof. eapply infix_of_trans; [apply rstrip_infix|apply lstrip_infix]. Qed.

Lemma infix_of_Forall (P : ascii -> Prop) (c t : text) :
  infix_of c t -> Forall P t -> Forall P c.
Proof.
  intros (l1 & l2 & ->) H. apply Forall_app in H as [_ H]. by apply Forall_app in H as [H _].
Qed.

Lemma single_spaced_infix (c t : text) :
  infix_of c t -> single_spaced t -> single_spaced c.
Proof.
  intros Hin [Hall Hno]. split; [by eapply infix_of_Forall|].
  destruct (contains _ c) eqn:E; [|done].
  rewrite contains_spec in E. rewrite <- Hno. symmetry. apply contains_spec.
  by eapply infix_of_trans.
Qed.

End Substrings.

(** ** Whitespace normalisation *)

Section Normalisation.
Import Chunks.

Lemma sub_ws_go_spaces (b : bool) (s : text) :
  forallb isspace s = true -> forallb isspace (sub_ws_go b s) = true.
Proof.
  revert b. induction s as [|c s IH]; intros b; simpl; [done|].
  intros [Hc Hs]%andb_prop. rewrite Hc. destruct b; simpl; by apply IH.
Qed.

Lemma normalize_spaces (s : text) : forallb isspace s = true -> normalize s = [].
Proof. intros H. unfold normalize. apply strip_spaces. by apply sub_ws_go_spaces. Qed.

Lemma sub_ws_go_only_spaces (b : bool) (s : text) :
  Forall (fun c => isspace c = true -> c = " "%char) (sub_ws_go b s).
Proof.
  revert b. induction s as [|c s IH]; intros b; simpl; [constructor|].
  destruct (isspace c) eqn:Ec.
  - destruct b; [apply IH|]. constructor; [done|apply IH].
  - constructor; [congruence|apply IH].
Qed.

(** Inside a run of whitespace nothing is written until the run ends. *)
Lemma sub_ws_go_true_head (s : text) :
  startswith [" "%char] (sub_ws_go true s) = false.
Proof.
  induction s as [|c s IH]; cbn [sub_ws_go]; [done|].
  destruct (isspace c) eqn:Ec; [exact IH|].
  cbn [startswith]. destruct (Ascii.eqb_spec " "%char c) as [<-|]; [|done].
  vm_compute in Ec. discriminate.
Qed.

Lemma sub_ws_go_no_double (b : bool) (s : text) :
  contains [" "%char; " "%char] (sub_ws_go b s) = false.
Proof.
  revert b. induction s as [|c s IH]; intros b; cbn [sub_ws_go]; [done|].
  destruct (isspace c) eqn:Ec.
  - destruct b; [apply IH|].
    cbn [contains]. rewrite IH, orb_false_r.
    cbn [startswith]. rewrite Ascii.eqb_refl.
    pose proof (sub_ws_go_true_head s) as Hh.
    destruct (sub_ws_go true s) as [|d r]; [done|].
    cbn [startswith] in Hh |- *.
    by destruct (Ascii.eqb " " d).
  - cbn [contains]. rewrite IH, orb_false_r. cbn [startswith].
    destruct (Ascii.eqb_spec " "%char c) as [<-|]; [|done].
    vm_compute in Ec. discriminate.
Qed.

Lemma normalize_single_spaced (s : text) : single_spaced (normalize s).
Proof.
  apply (single_spaced_infix _ (sub_ws s)); [apply strip_infix|].
  split; [apply sub_ws_go_only_spaces|apply sub_ws_go_no_double].
Qed.

End Normalisation.

(** ** More on the chunker *)

Section ChunkerFacts.
Import Chunks.

Lemma chunk_loop_more_fuel (fuel fuel' : nat) (t : text) (chunk_size overlap : Z)
  (st : chunk_state) (cs : list text) :
  chunk_loop fuel t chunk_size overlap st = Some cs -> (fuel <= fuel')%nat ->
  chunk_loop fuel' t chunk_size overlap st = Some cs.
Proof.
  revert fuel' st. induction fuel as [|fuel IH]; intros fuel' st; cbn [chunk_loop].
  - destruct (cs_start st <? len t) eqn:E; [discriminate|].
    intros H _. destruct fuel'; cbn [chunk_loop]; by rewrite E.
  - destruct (cs_start st <? len t) eqn:E.
    + intros H Hle. destruct fuel' as [|fuel']; [lia|]. cbn [chunk_loop]. rewrite E.
      cbv zeta in *.
      destruct (len t <=? cs_start (chunk_body t chunk_size overlap st)); [done|].
      apply IH; [done|lia].
    + intros H _. destruct fuel'; cbn [chunk_loop]; by rewrite E.
Qed.



Lemma chunk_run_Forall (P : text -> Prop) (n : nat) (t : text)
  (chunk_size overlap : Z) (st : chunk_state) :
  (forall start,
     truthy (strip (slice t start (window_end t chunk_size start))) = true ->
     P (strip (slice t start (window_end t chunk_size start)))) ->
  Forall P (cs_chunks st) ->
  Forall P (cs_chunks (chunk_run n t chunk_size overlap st)).
Proof.
  intros HP. revert st. induction n as [|n IH]; intros st Hst; simpl; [done|].
  destruct (cs_start st <? len t); [|done].
  apply IH. unfold chunk_body; simpl.
  destruct (truthy _) eqn:E; [|done].
  apply Forall_app. split; [done|]. constructor; [by apply HP|constructor].
Qed.

(** A chunk is a window of the normalised text, trimmed, and not empty. *)
Lemma chunk_of_window (s : text) (chunk_size overlap : Z) (c : text) :
  chunk_of s chunk_size overlap c ->
  c <> [] /\ exists start e, c = strip (slice (normalize s) start e).
Proof.
  intros [n Hn].
  pose proof (chunk_run_Forall
                (fun c => c <> [] /\ exists start e, c = strip (slice (normalize s) start e))
                n (normalize s) chunk_size overlap
                {| cs_start := 0; cs_chunks := [] |}) as H.
  assert (Hall : Forall
            (fun c => c <> [] /\ exists start e, c = strip (slice (normalize s) start e))
            (cs_chunks (chunk_run n (normalize s) chunk_size overlap
                          {| cs_start := 0; cs_chunks := [] |}))).
  { apply H; [|constructor].
    intros start Ht. split; [by destruct (strip _)|by eexists _, _]. }
  rewrite Forall_forall in Hall. by apply Hall.
Qed.

End ChunkerFacts.

Lemma chunk_text_fuel_independent (s : text) (chunk_size overlap : Z) :
  advancing chunk_size overlap ->
  exists cs : list text,
    forall fuel : nat,
      (length (normalize s) <= fuel)%nat ->
      chunk_text fuel s chunk_size overlap = Some cs.
Proof.
  intros Hadv.
  destruct (chunk_text_total (length (normalize s)) s chunk_size overlap) as [cs Hcs];
    [done|lia|].
  exists cs. intros fuel Hfuel. revert Hcs. unfold chunk_text.
  destruct (truthy s); [|done]. intros Hcs. by eapply chunk_loop_more_fuel.
Qed.

Lemma chunk_of_infix (s : text) (chunk_size overlap : Z) (c : text) :
  Chunks.chunk_of s chunk_size overlap c -> Chunks.infix_of c (normalize s).
Proof.
  intros H. apply chunk_of_window in H as (_ & start & e & ->).
  eapply infix_of_trans; [apply strip_infix|apply slice_infix].
Qed.

Lemma chunk_text_no_chunk (fuel : nat) (s : text) (chunk_size overlap : Z) :
  forallb isspace s = true -> chunk_text fuel s chunk_size overlap = Some [].
Proof.
  intros H. unfold chunk_text. destruct (truthy s); [|done].
  rewrite (normalize_spaces s H). by destruct fuel.
Qed.

(** [chunk_text] terminates, with a result that does not depend on the
    number of iterations allowed, whenever 0 < chunk_size,
    overlap < chunk_size and overlap <= chunk_size // 2 + 1; the loop runs
    at most len(normalised text) times. *)
Theorem chunk_text_terminates (s : text) (chunk_size overlap : Z) :
  0 < chunk_size -> overlap < chunk_size -> overlap <= chunk_size / 2 + 1 ->
  exists cs : list text,
    forall fuel : nat,
      (length (normalize s) <= fuel)%nat ->
      chunk_text fuel s chunk_size overlap = Some cs.
Proof. intros Hsz Hov Hhalf. by apply chunk_text_fuel_independent. Qed.

(** With the default window of 1000 characters and overlap of 200. *)
Lemma chunk_text_terminates_witness :
  exists cs : list text,
    forall fuel : nat,
      (length (normalize "Sunny. Mild wind.") <= fuel)%nat ->
      chunk_text fuel "Sunny. Mild wind." 1000 200 = Some cs.
Proof.
  apply (chunk_text_terminates "Sunny. Mild wind." 1000 200); [lia|lia|].
  vm_compute. discriminate.
Defined.

(** Every chunk is non-empty and has no whitespace at either end. *)
Theorem chunk_text_chunks_trimmed (s : text) (chunk_size overlap : Z) (c : text) :
  Chunks.chunk_of s chunk_size overlap c -> c <> [] /\ strip c = c.
Proof.
  intros H. apply chunk_of_window in H as (Hne & start & e & ->).
  split; [done|apply strip_idem].
Qed.

Lemma chunk_text_chunks_trimmed_witness :
  T "Hello. Wor" <> [] /\ strip "Hello. Wor" = T "Hello. Wor".
Proof.
  apply (chunk_text_chunks_trimmed " Hello.  World is big. " 10 2 "Hello. Wor").
  exists 1%nat. vm_compute. left.
Defined.

(** Every chunk occurs in the whitespace-normalised text as a run of
    consecutive characters. *)
Theorem chunk_text_chunks_are_substrings (s : text) (chunk_size overlap : Z) (c : text) :
  Chunks.chunk_of s chunk_size overlap c -> contains c (normalize s) = true.
Proof. intros H. apply contains_spec. by apply (chunk_of_infix s chunk_size overlap). Qed.

Lemma chunk_text_chunks_are_substrings_witness :
  contains "Hello. Wor" (normalize " Hello.  World is big. ") = true.
Proof.
  apply (chunk_text_chunks_are_substrings " Hello.  World is big. " 10 2 "Hello. Wor").
  exists 1%nat. vm_compute. left.
Defined.

(** In every chunk the only whitespace is single spaces: no tab, no line
    break, no two spaces in a row. *)
Theorem chunk_text_chunks_single_spaced (s : text) (chunk_size overlap : Z) (c : text) :
  Chunks.chunk_of s chunk_size overlap c -> Chunks.single_spaced c.
Proof.
  intros H. apply chunk_of_infix in H.
  eapply single_spaced_infix; [exact H|apply normalize_single_spaced].
Qed.

Lemma chunk_text_chunks_single_spaced_witness : Chunks.single_spaced "World is".
Proof.
  apply (chunk_text_chunks_single_spaced
           ["W"; "o"; "r"; "l"; "d"; "009"; "010"; " "; "i"; "s"; " "; "b"; "i"; "g"]%char
           8 0 "World is").
  exists 1%nat. vm_compute. left.
Defined.

(** A text made of whitespace only, the empty text included, has no chunk,
    whatever the parameters. *)
Theorem chunk_text_blank (fuel : nat) (s : text) (chunk_size overlap : Z) :
  forallb isspace s = true -> chunk_text fuel s chunk_size overlap = Some [].
Proof. apply chunk_text_no_chunk. Qed.

Lemma chunk_text_blank_witness :
  chunk_text 0 [" "; "010"; "009"]%char 1000 200 = Some [].
Proof. apply (chunk_text_blank 0 [" "; "010"; "009"]%char 1000 200). reflexivity. Defined.



(** ** More on the evaluator *)

Section EvaluatorFacts.
Import EvaluationService Scores.

Lemma strip_empty_spaces (s : text) : strip s = [] -> forallb isspace s = true.
Proof.
  unfold strip, rstrip. intros H.
  apply (f_equal (@rev ascii)) in H. rewrite rev_involutive in H. simpl in H.
  destruct (lstrip_suffix (rev (lstrip s))) as (ws & E & Hws).
  rewrite H, app_nil_r in E. apply (f_equal (@rev ascii)) in E.
  rewrite rev_involutive in E.
  destruct (lstrip_suffix s) as (ws' & E' & Hws').
  rewrite E', E, forallb_app, Hws'. simpl.
  rewrite forallb_forall in *. intros c Hc. apply Hws. by apply in_rev.
Qed.

Lemma lower_char_space (c : ascii) : isspace c = true -> lower_char c = c.
Proof. destruct c as [[] [] [] [] [] [] [] []]; vm_compute; congruence. Qed.

Lemma lower_spaces (s : text) : forallb isspace s = true -> lower s = s.
Proof.
  induction s as [|c s IH]; simpl; [done|]. intros [Hc Hs]%andb_prop.
  by rewrite lower_char_space, IH.
Qed.

(** A response whose lower-cased form contains a word with a character
    that is not whitespace is not blank. *)
Lemma contains_not_blank (w r : text) :
  forallb isspace w = false -> contains w (lower r) = true ->
  truthy r = true /\ strip r <> [].
Proof.
  intros Hw Hin. assert (Hs : strip r <> []).
  { intros Hs. apply strip_empty_spaces in Hs.
    rewrite (lower_spaces r Hs) in Hin. apply contains_spec in Hin as (l1 & l2 & E).
    rewrite E, !forallb_app in Hs. rewrite Hw in Hs. simpl in Hs.
    by rewrite andb_false_r in Hs. }
  split; [|done]. destruct r; [|done]. by destruct Hs.
Qed.

Lemma text_eqb_false (a b : text) : a <> b -> text_eqb a b = false.
Proof. intros H. unfold text_eqb. by apply bool_decide_eq_false. Qed.

Lemma mean_ge (k a b c d : Z) :
  Qle_bool (inject_Z k) (mean [a; b; c; d]) = (4 * k <=? a + b + c + d).
Proof.
  unfold Qle_bool, mean, sum, Qdiv, Qmult, Qinv, inject_Z. simpl.
  match goal with |- context [Z.pos ?p] => change (Z.pos p) with 4 end.
  destruct (Z.leb_spec (k * 4) ((a + (b + (c + (d + 0)))) * 1 * 1)),
    (Z.leb_spec (4 * k) (a + b + c + d)); lia.
Qed.

Lemma mean_le (a b c d n : Z) :
  a + b + c + d <= n -> (mean [a; b; c; d] <= n # 4)%Q.
Proof.
  intros H. unfold Qle, mean, sum, Qdiv, Qmult, Qinv, inject_Z. simpl.
  match goal with |- context [Z.pos (?p * ?r)] => change (Z.pos (p * r)) with 4 end.
  lia.
Qed.

End EvaluatorFacts.

(** An empty response gets the floor on every axis, whatever the query and
    its type: four scores of 1, an overall score of 1, the four warnings and
    the "needs improvement" verdict. *)
Theorem evaluate_response_empty (user_query query_type : text) :
  let ev := EvaluationService.evaluate_response user_query "" query_type in
  EvaluationService.accuracy ev = 1
  /\ EvaluationService.relevance ev = 1
  /\ EvaluationService.completeness ev = 1
  /\ EvaluationService.clarity ev = 1
  /\ (EvaluationService.overall_score ev == 1)%Q
  /\ EvaluationService.feedback ev
     = [T "⚠️ Response accuracy could be improved";
        T "⚠️ Response could be more relevant to the query";
        T "⚠️ Response could be more comprehensive";
        T "⚠️ Response could be clearer and better formatted";
        T "⚠️ Response quality needs improvement"].
Proof. repeat split. Qed.

Lemma evaluate_response_feedback_aux (user_query response query_type : text) :
  let ev := EvaluationService.evaluate_response user_query response query_type in
  length (EvaluationService.feedback ev) = S (Scores.low_scores ev)
  /\ last (EvaluationService.feedback ev) = Some (Scores.verdict (Scores.total ev)).
Proof.
  cbv zeta. unfold EvaluationService.evaluate_response, Scores.low_scores, Scores.total.
  cbn [EvaluationService.accuracy EvaluationService.relevance
       EvaluationService.completeness EvaluationService.clarity
       EvaluationService.overall_score EvaluationService.feedback].
  set (a := EvaluationService._evaluate_accuracy _ _ _).
  set (r := EvaluationService._evaluate_relevance _ _ _).
  set (c := EvaluationService._evaluate_completeness _ _ _).
  set (cl := EvaluationService._evaluate_clarity _).
  unfold EvaluationService._generate_feedback.
  cbn [EvaluationService.accuracy EvaluationService.relevance
       EvaluationService.completeness EvaluationService.clarity
       EvaluationService.overall_score].
  change 4%Q with (inject_Z 4). change 3%Q with (inject_Z 3).
  rewrite !mean_ge. unfold Scores.verdict.
  change (4 * 4) with 16. change (4 * 3) with 12.
  rewrite !filter_cons, filter_nil.
  destruct (Z.ltb_spec a 3), (Z.ltb_spec r 3), (Z.ltb_spec c 3), (Z.ltb_spec cl 3);
    repeat (destruct (decide _); try lia);
    destruct (16 <=? a + r + c + cl), (12 <=? a + r + c + cl); split; reflexivity.
Qed.

(** The feedback of [evaluate_response] has one warning per sub-score below
    3, followed by one verdict decided by the sum of the four sub-scores:
    excellent from 16, good from 12, needs improvement below. *)
Theorem evaluate_response_feedback (user_query response query_type : text) :
  let ev := EvaluationService.evaluate_response user_query response query_type in
  length (EvaluationService.feedback ev) = S (Scores.low_scores ev)
  /\ last (EvaluationService.feedback ev) = Some (Scores.verdict (Scores.total ev)).
Proof. apply evaluate_response_feedback_aux. Qed.

(** Accuracy never exceeds 4, so the overall score never exceeds 4.75 (and
    is at least 1). *)
Theorem evaluate_response_never_perfect (user_query response query_type : text) :
  let ev := EvaluationService.evaluate_response user_query response query_type in
  EvaluationService.accuracy ev <= 4
  /\ (1 <= EvaluationService.overall_score ev)%Q
  /\ (EvaluationService.overall_score ev <= 19 # 4)%Q.
Proof.
  cbv zeta. unfold EvaluationService.evaluate_response.
  cbn [EvaluationService.accuracy EvaluationService.relevance
       EvaluationService.completeness EvaluationService.clarity
       EvaluationService.overall_score].
  pose proof (_evaluate_relevance_range user_query response query_type) as Hr.
  pose proof (_evaluate_completeness_range user_query response query_type) as Hc.
  pose proof (_evaluate_clarity_range response) as Hcl.
  pose proof (_evaluate_accuracy_range user_query response query_type) as Ha.
  assert (Hacc : EvaluationService._evaluate_accuracy user_query response query_type <= 4).
  { unfold EvaluationService._evaluate_accuracy.
    repeat match goal with |- context [if ?b then _ else _] => destruct b end; lia. }
  split; [exact Hacc|]. split.
  - apply Qle_bool_iff. change 1%Q with (inject_Z 1). rewrite mean_ge.
    apply Z.leb_le. lia.
  - apply mean_le. lia.
Qed.

(** A response that contains the bold marker "**" gets clarity 5: the
    marker counts as a heading, and its asterisk as a list marker. *)
Theorem clarity_bold_is_five (response : text) :
  contains "**" response = true -> EvaluationService._evaluate_clarity response = 5.
Proof.
  intros Hbold.
  assert (Hstar : contains "*" response = true).
  { eapply contains_trans; [|exact Hbold]. reflexivity. }
  assert (Ht : truthy response = true).
  { destruct response; [|done]. discriminate Hbold. }
  unfold EvaluationService._evaluate_clarity. rewrite Ht. cbn [negb].
  rewrite Hbold, orb_true_r.
  assert (Hs : any_in (map T ["•"; "-"; "*"; "1."; "2."])%string response = true).
  { apply any_in_spec. exists (T "*"). split; [|done]. simpl. tauto. }
  rewrite Hs. cbv zeta.
  destruct (contains [EvaluationService.newline; EvaluationService.newline] response);
    reflexivity.
Qed.

Lemma clarity_bold_is_five_witness :
  EvaluationService._evaluate_clarity "It is **sunny** today" = 5.
Proof. apply (clarity_bold_is_five "It is **sunny** today"). reflexivity. Defined.

(** A response that mentions "error", "failed", "unavailable" or
    "limitation", in any letter case, gets accuracy 2 whatever the query and
    its type. *)
Theorem accuracy_failure_words (query response query_type : text) :
  any_in Scores.failure_words (lower response) = true ->
  EvaluationService._evaluate_accuracy query response query_type = 2.
Proof.
  intros Hfail.
  assert (Hnb : truthy response = true /\ strip response <> []).
  { apply any_in_spec in Hfail as (w & Hw & Hin).
    apply (contains_not_blank w); [|done].
    simpl in Hw. destruct Hw as [<-|[<-|[<-|[<-|[]]]]]; reflexivity. }
  destruct Hnb as [Ht Hs].
  unfold EvaluationService._evaluate_accuracy.
  rewrite Ht, (text_eqb_false (strip response) (T "") Hs). cbn [negb orb].
  change (map T ["error"; "failed"; "unavailable"; "limitation"]%string)
    with Scores.failure_words.
  by rewrite Hfail.
Qed.

Lemma accuracy_failure_words_witness :
  EvaluationService._evaluate_accuracy "weather in Paris"
    "The temperature service is UNAVAILABLE" "weather" = 2.
Proof.
  apply (accuracy_failure_words "weather in Paris"
           "The temperature service is UNAVAILABLE" "weather").
  reflexivity.
Defined.



(** ** Reading and packaging a PDF *)

Section Ingest.
Import PDFIngest Chunks.

Lemma extract_pages_blank (ps : list (result text)) (acc : text) :
  Forall (fun page => exists t, page = Ok t /\ forallb isspace t = true) ps ->
  forallb isspace acc = true ->
  exists t, extract_pages ps acc = Ok t /\ forallb isspace t = true.
Proof.
  intros Hps. revert acc. induction Hps as [|p ps (t & -> & Ht) _ IH]; intros acc Hacc; simpl.
  - by exists acc.
  - apply IH. rewrite !forallb_app, Hacc, Ht. reflexivity.
Qed.

Lemma extract_text_failure (pdf : pdf_file) (e : exn) :
  extract_text_from_pdf pdf = Raise e ->
  exists msg, e = Exception (T "Error extracting text from PDF: " ++ msg).
Proof.
  unfold extract_text_from_pdf, try_except.
  destruct (bind pdf _) as [t|e']; [discriminate|]. intros [= <-]. by eexists.
Qed.


End Ingest.



Lemma process_blank (fuel : nat) (pdf_reader : PDFIngest.PdfReader) (source_name : text) :
  PDFIngest.blank_pages pdf_reader ->
  PDFIngest.process_pdf_for_rag fuel (Ok pdf_reader) source_name = Some (Ok []).
Proof.
  intros Hblank. unfold PDFIngest.process_pdf_for_rag, PDFIngest.extract_text_from_pdf.
  simpl. destruct (extract_pages_blank _ [] Hblank eq_refl) as (t & -> & Ht).
  simpl. by rewrite (chunk_text_no_chunk fuel t 1000 200 Ht).
Qed.

(** A PDF whose pages hold whitespace only gives no document, without
    error. *)
Theorem process_pdf_for_rag_blank (fuel : nat) (pdf_reader : PDFIngest.PdfReader)
  (source_name : text) :
  PDFIngest.blank_pages pdf_reader ->
  PDFIngest.process_pdf_for_rag fuel (Ok pdf_reader) source_name = Some (Ok []).
Proof. apply process_blank. Qed.

Lemma process_pdf_for_rag_blank_witness :
  PDFIngest.process_pdf_for_rag 0
    (Ok {| PDFIngest.pages := [Ok []; Ok [" "%char; "010"%char]];
           PDFIngest.metadata := None |}) "scan.pdf" = Some (Ok []).
Proof.
  apply (process_pdf_for_rag_blank 0
           {| PDFIngest.pages := [Ok []; Ok [" "%char; "010"%char]];
              PDFIngest.metadata := None |} "scan.pdf").
  repeat constructor; by eexists.
Defined.

(** ** Storing and finding documents *)

Section StoreFacts.
Import VectorStore.

(** What a successful [add_documents] on a non-empty list has done. *)
Lemma add_documents_ok_inv (b : backend) (documents : list document) (w w' : world)
  (ids : list text) :
  documents <> [] ->
  add_documents b documents w = (Ok ids, w') ->
  exists texts es points w1,
    contents documents = Ok texts
    /\ embed_documents b texts = Ok es
    /\ make_points b (zip documents es)
         {| drawn := drawn w; calls := calls w ++ [EmbedDocuments texts] |}
       = (Ok points, w1)
    /\ ids = map id points
    /\ w' = {| drawn := drawn w1;
               calls := calls w1 ++ [Upsert (collection_name b) points] |}.
Proof.
  intros Hne. destruct documents as [|d ds]; [done|].
  unfold add_documents. cbv iota. set (documents := d :: ds).
  unfold try_with, mbind, lift, call_embed, call_upsert, ret, raise. cbv beta.
  destruct (contents documents) as [texts|] eqn:Et; [|discriminate]. cbv beta iota.
  destruct (embed_documents b texts) as [es|] eqn:Ee; [|discriminate]. cbv beta iota.
  match goal with
  | |- context [make_points b ?ps ?w0] =>
      destruct (make_points b ps w0) as [[points|] w1] eqn:Ep
  end; [|discriminate].
  cbv beta iota.
  destruct (upsert b (collection_name b) points) as [[]|] eqn:Eu; [|discriminate].
  intros [= <- <-]. by exists texts, es, points, w1.
Qed.

Lemma add_documents_raise_inv (b : backend) (documents : list document) (w w' : world)
  (e : exn) :
  add_documents b documents w = (Raise e, w') ->
  exists msg, e = Exception (T "Error adding documents to vector store: " ++ msg).
Proof.
  destruct documents as [|d ds]; [discriminate|].
  unfold add_documents. cbv iota. unfold try_with, raise.
  match goal with |- context [match ?m w with _ => _ end] => destruct (m w) as [[ids|e'] w1] end;
    [discriminate|].
  intros [= <- <-]. by eexists.
Qed.

Lemma make_points_payloads (b : backend) (pairs : list (document * embedding))
  (w w' : world) (points : list PointStruct) :
  make_points b pairs w = (Ok points, w') ->
  map payload points = map (fun pr => Upload.payload_of pr.1) pairs.
Proof.
  revert w points. induction pairs as [|[doc emb] rest IH]; intros w points; simpl.
  - unfold ret. by intros [= <- <-].
  - unfold mbind, call_uuid4, lift, ret, getitem.
    destruct (doc !! "content"%string) as [c|] eqn:Ec; [|discriminate].
    destruct (make_points b rest {| drawn := S (drawn w); calls := calls w |})
      as [[pts|e] w1] eqn:E; [|discriminate].
    intros [= <- <-]. apply IH in E. simpl. rewrite E. f_equal.
    unfold Upload.payload_of, get. by rewrite Ec.
Qed.

Lemma contents_get (documents : list document) (texts : list pyval) :
  contents documents = Ok texts ->
  texts = map (fun d => get d "content" (VStr [])) documents.
Proof.
  revert texts. induction documents as [|d ds IH]; intros texts; simpl.
  - by intros [= <-].
  - unfold getitem, get. destruct (d !! "content"%string) as [c|]; simpl; [|discriminate].
    destruct (contents ds) as [cs|]; simpl; [|discriminate].
    intros [= <-]. f_equal. by apply IH.
Qed.

Lemma format_hits_stored (points : list PointStruct) (scores : list Q)
  (documents : list document) :
  map payload points = map Upload.payload_of documents ->
  Forall (fun d => is_Some (d !! "content"%string)) documents ->
  VectorSearch.format_hits (VectorSearch.hits_of points scores)
  = Ok (zip_with (fun d s => VectorSearch.found d (get d "content" (VStr [])) s)
          documents scores).
Proof.
  revert scores documents. induction points as [|p ps IH]; intros scores documents.
  - destruct documents; [|discriminate]. by intros _ _.
  - destruct documents as [|d ds]; [discriminate|]. intros [= Hp Hps] Hall.
    apply Forall_cons in Hall as [[c Hc] Hall].
    destruct scores as [|s ss]; [done|]. simpl.
    rewrite (IH ss ds Hps Hall). unfold VectorSearch.format_hit. simpl.
    rewrite Hp. unfold getitem, get, Upload.payload_of, get. rewrite Hc. simpl.
    reflexivity.
Qed.

Lemma contents_all_have (documents : list document) (texts : list pyval) :
  contents documents = Ok texts ->
  Forall (fun d => is_Some (d !! "content"%string)) documents.
Proof.
  revert texts. induction documents as [|d ds IH]; intros texts; simpl; [constructor|].
  unfold getitem. destruct (d !! "content"%string) as [c|] eqn:Ec; simpl; [|discriminate].
  destruct (contents ds) as [cs|] eqn:E; simpl; [|discriminate].
  intros _. constructor; [by eexists|by eapply IH].
Qed.

(** The points of a successful [add_documents] carry the payloads of the
    documents, in order. *)
Lemma add_documents_payloads (b : backend) (documents : list document) (w w' : world)
  (ids : list text) (points : list PointStruct) :
  embeds_each b ->
  add_documents b documents w = (Ok ids, w') ->
  last (calls w') = Some (Upsert (collection_name b) points) ->
  documents <> [] ->
  map payload points = map Upload.payload_of documents
  /\ Forall (fun d => is_Some (d !! "content"%string)) documents.
Proof.
  intros Hembed Hadd Hlast Hne.
  destruct (add_documents_ok_inv b documents w w' ids Hne Hadd)
    as (texts & es & pts & w1 & Ht & He & Hp & _ & ->).
  simpl in Hlast. rewrite last_snoc in Hlast. injection Hlast as <-.
  split; [|by eapply contents_all_have].
  rewrite (make_points_payloads _ _ _ _ _ Hp).
  apply Hembed in He. apply contents_length in Ht.
  rewrite <- (map_map fst Upload.payload_of). f_equal.
  apply fst_zip. lia.
Qed.

End StoreFacts.

(** What [add_documents] stored is what [search] gives back: when the
    store answers a search with the points of a successful [add_documents],
    [search] returns, for each document and in order, its content, its
    metadata (or an empty dictionary), its source (or "unknown") and the
    score; no key is missing. *)
Theorem search_returns_stored_documents
  (b : VectorStore.backend) (sb : VectorSearch.backend)
  (documents : list (gmap string pyval)) (w w' : VectorStore.world) (ids : list text)
  (points : list VectorStore.PointStruct) (scores : list Q)
  (query : text) (top_k : Z) (query_embedding : list Q) :
  VectorStore.embeds_each b ->
  documents <> [] ->
  VectorStore.add_documents b documents w = (Ok ids, w') ->
  last (VectorStore.calls w')
  = Some (VectorStore.Upsert (VectorStore.collection_name b) points) ->
  VectorSearch.embed_query sb query = Ok query_embedding ->
  VectorSearch.client_search sb (VectorSearch.collection_name sb) query_embedding top_k
  = Ok (VectorSearch.hits_of points scores) ->
  VectorSearch.search sb query top_k
  = Ok (zip_with (fun d s => VectorSearch.found d (get d "content" (VStr [])) s)
          documents scores).
Proof.
  intros Hembed Hne Hadd Hlast Hq Hs.
  destruct (add_documents_payloads b documents w w' ids points Hembed Hadd Hlast Hne)
    as [Hpay Hall].
  unfold VectorSearch.search. rewrite Hq. simpl. rewrite Hs. simpl.
  by apply format_hits_stored.
Qed.

Lemma search_returns_stored_documents_witness :
  VectorSearch.search
    (VectorSearch.sample_backend Samples.sample_points [9 # 10; 1 # 2]%Q) "chunk" 3
  = Ok (zip_with (fun d s => VectorSearch.found d (get d "content" (VStr [])) s)
          VectorStore.sample_documents [9 # 10; 1 # 2]%Q).
Proof.
  apply (search_returns_stored_documents VectorStore.sample_backend
           (VectorSearch.sample_backend Samples.sample_points [9 # 10; 1 # 2]%Q)
           VectorStore.sample_documents Samples.world0
           (VectorStore.add_documents VectorStore.sample_backend
              VectorStore.sample_documents Samples.world0).2
           [T "a"; T "aa"] Samples.sample_points [9 # 10; 1 # 2]%Q "chunk" 3 [1; 0]%Q).
  - intros texts es. simpl. intros [= <-]. apply length_map.
  - discriminate.
  - vm_compute. reflexivity.
  - vm_compute. reflexivity.
  - reflexivity.
  - reflexivity.
Defined.

(** ** Uploading a PDF *)

Section UploadFacts.
Import PDFIngest Upload.

Lemma map_imap_const {A B C : Type} (f : nat -> A -> B) (g : B -> C) (h : A -> C)
  (l : list A) :
  (forall i x, g (f i x) = h x) -> map g (imap f l) = map h l.
Proof.
  intros H. revert f H. induction l as [|x l IH]; intros f H; simpl; [done|].
  rewrite H. f_equal. apply IH. intros i y. apply H.
Qed.

Lemma payload_of_make_document (source_name : text) (i : nat) (chunk : text) :
  payload_of (make_document source_name i chunk) = make_document source_name i chunk.
Proof. reflexivity. Qed.

Lemma map_imap_id {A B : Type} (f : nat -> A -> B) (g : B -> B) (l : list A) :
  (forall i x, g (f i x) = f i x) -> map g (imap f l) = imap f l.
Proof.
  intros H. revert f H. induction l as [|x l IH]; intros f H; simpl; [done|].
  rewrite H. f_equal. apply IH. intros i y. apply H.
Qed.

End UploadFacts.

(** A successful [upload_pdf] reports as many documents stored as
    processed, one per chunk of the text of the PDF, when the embedding
    provider answers with one vector per text.  With no chunk nothing is
    sent; otherwise the provider receives the chunks and the store one
    point per chunk, in order, whose payload is the chunk's document
    (content, chunk_id, chunk_size, source). *)
Theorem upload_pdf_stores_every_chunk (fuel : nat) (b : VectorStore.backend)
  (pdf pdf_again : PDFIngest.pdf_file) (source_name : text)
  (w w' : VectorStore.world) (n m : Z) (info : gmap string pyval) (src : text) :
  VectorStore.embeds_each b ->
  Upload.upload_pdf fuel b pdf pdf_again source_name w
  = (Some (Upload.Uploaded n m info src), w') ->
  exists (text_ : text) (chunks : list text),
    PDFIngest.extract_text_from_pdf pdf = Ok text_
    /\ chunk_text fuel text_ 1000 200 = Some chunks
    /\ n = Z.of_nat (length chunks) /\ m = n
    /\ src = source_name /\ info = PDFIngest.get_pdf_info pdf_again
    /\ (chunks = [] -> w' = w)
    /\ (chunks <> [] ->
        exists points,
          VectorStore.calls w'
          = VectorStore.calls w
              ++ [VectorStore.EmbedDocuments (map VStr chunks);
                  VectorStore.Upsert (VectorStore.collection_name b) points]
          /\ map VectorStore.payload points
             = imap (PDFIngest.make_document source_name) chunks).
Proof.
  intros Hembed. unfold Upload.upload_pdf, PDFIngest.process_pdf_for_rag.
  destruct (PDFIngest.extract_text_from_pdf pdf) as [t|e] eqn:Etext; [|discriminate].
  destruct (chunk_text fuel t 1000 200) as [chunks|] eqn:Echunks; [|discriminate].
  set (documents := imap (PDFIngest.make_document source_name) chunks).
  destruct (VectorStore.add_documents b documents w) as [[ids|e] w1] eqn:Eadd;
    [|discriminate].
  intros [= <- <- <- <- <-]. exists t, chunks.
  assert (Hdocs : length documents = length chunks) by apply length_imap.
  destruct chunks as [|c cs].
  - simpl in Eadd. injection Eadd as <- <-. repeat split; try done.
  - assert (Hne : documents <> []) by done.
    destruct (add_documents_ok_inv b documents w w1 ids Hne Eadd)
      as (texts & es & points & w2 & Ht & He & Hp & -> & ->).
    pose proof (contents_length _ _ Ht) as Hlt.
    pose proof (Hembed _ _ He) as Hle.
    pose proof (make_points_payloads _ _ _ _ _ Hp) as Hpay.
    apply make_points_spec in Hp as (Hids & _ & Hcalls).
    apply contents_get in Ht.
    assert (Htexts : texts = map VStr (c :: cs)).
    { rewrite Ht. unfold documents. by apply map_imap_const. }
    assert (Hpayloads : map VectorStore.payload points = documents).
    { rewrite Hpay, <- (map_map fst Upload.payload_of), fst_zip by lia.
      unfold documents. apply map_imap_id. intros i x. apply payload_of_make_document. }
    assert (Hlen : length points = length documents).
    { rewrite <- (length_map VectorStore.id), Hids, length_map, length_seq.
      rewrite length_zip_with. lia. }
    repeat split; try done.
    + by rewrite Hdocs.
    + by rewrite length_map, Hlen.
    + intros _. exists points. split; [|exact Hpayloads].
      cbn [VectorStore.calls] in *. rewrite Hcalls, <- app_assoc, Htexts. reflexivity.
Qed.

(** A PDF whose pages hold whitespace only is a success with 0 documents
    processed and stored, and nothing is sent to the embedding provider or
    to the store. *)
Theorem upload_pdf_blank (fuel : nat) (b : VectorStore.backend)
  (pdf_reader : PDFIngest.PdfReader) (pdf_again : PDFIngest.pdf_file)
  (source_name : text) (w : VectorStore.world) :
  PDFIngest.blank_pages pdf_reader ->
  Upload.upload_pdf fuel b (Ok pdf_reader) pdf_again source_name w
  = (Some (Upload.Uploaded 0 0 (PDFIngest.get_pdf_info pdf_again) source_name), w).
Proof.
  intros Hblank. unfold Upload.upload_pdf. by rewrite (process_blank fuel _ _ Hblank).
Qed.

(** Every failure reported by [upload_pdf] is a failure to read the PDF,
    reported as "Error processing PDF: Error extracting text from PDF: ..."
    with nothing sent, or a failure to store, reported as "Error adding
    documents to vector store: ...". *)
Theorem upload_pdf_failure_reports (fuel : nat) (b : VectorStore.backend)
  (pdf pdf_again : PDFIngest.pdf_file) (source_name : text)
  (w w' : VectorStore.world) (error : text) :
  Upload.upload_pdf fuel b pdf pdf_again source_name w = (Some (Upload.Failed error), w') ->
  (exists msg,
     error = T "Error processing PDF: Error extracting text from PDF: " ++ msg
     /\ w' = w)
  \/ (exists msg, error = T "Error adding documents to vector store: " ++ msg).
Proof.
  unfold Upload.upload_pdf, PDFIngest.process_pdf_for_rag.
  destruct (PDFIngest.extract_text_from_pdf pdf) as [t|e] eqn:Et.
  - destruct (chunk_text fuel t 1000 200) as [chunks|]; [|discriminate].
    destruct (VectorStore.add_documents b _ w) as [[ids|e] w1] eqn:Eadd; [discriminate|].
    intros [= <- <-]. right. apply add_documents_raise_inv in Eadd as [msg ->].
    by exists msg.
  - intros [= <- <-]. left. apply extract_text_failure in Et as [msg ->].
    by exists msg.
Qed.

Lemma upload_pdf_stores_every_chunk_witness :
  exists (text_ : text) (chunks : list text),
    PDFIngest.extract_text_from_pdf Upload.sample_pdf = Ok text_
    /\ chunk_text 40 text_ 1000 200 = Some chunks
    /\ 1 = Z.of_nat (length chunks) /\ 1 = 1
    /\ T "notes.pdf" = T "notes.pdf"
    /\ PDFIngest.get_pdf_info Upload.sample_pdf = PDFIngest.get_pdf_info Upload.sample_pdf
    /\ (chunks = [] ->
        (Upload.upload_pdf 40 VectorStore.sample_backend Upload.sample_pdf
           Upload.sample_pdf "notes.pdf" Samples.world0).2 = Samples.world0)
    /\ (chunks <> [] ->
        exists points,
          VectorStore.calls
            (Upload.upload_pdf 40 VectorStore.sample_backend Upload.sample_pdf
               Upload.sample_pdf "notes.pdf" Samples.world0).2
          = VectorStore.calls Samples.world0
              ++ [VectorStore.EmbedDocuments (map VStr chunks);
                  VectorStore.Upsert
                    (VectorStore.collection_name VectorStore.sample_backend) points]
          /\ map VectorStore.payload points
             = imap (PDFIngest.make_document "notes.pdf") chunks).
Proof.
  apply (upload_pdf_stores_every_chunk 40 VectorStore.sample_backend Upload.sample_pdf
           Upload.sample_pdf "notes.pdf" Samples.world0).
  - intros texts es. simpl. intros [= <-]. apply length_map.
  - vm_compute. reflexivity.
Defined.

Lemma upload_pdf_blank_witness :
  Upload.upload_pdf 0 VectorStore.sample_backend
    (Ok {| PDFIngest.pages := [Ok [" "%char]]; PDFIngest.metadata := None |})
    Samples.broken_pdf "scan.pdf" Samples.world0
  = (Some (Upload.Uploaded 0 0 (PDFIngest.get_pdf_info Samples.broken_pdf) "scan.pdf"),
     Samples.world0).
Proof.
  apply (upload_pdf_blank 0 VectorStore.sample_backend
           {| PDFIngest.pages := [Ok [" "%char]]; PDFIngest.metadata := None |}
           Samples.broken_pdf "scan.pdf" Samples.world0).
  repeat constructor. by eexists.
Defined.

Lemma upload_pdf_failure_reports_witness :
  (exists msg,
     T "Error processing PDF: Error extracting text from PDF: EOF marker not found"
     = T "Error processing PDF: Error extracting text from PDF: " ++ msg
     /\ Samples.world0 = Samples.world0)
  \/ (exists msg,
        T "Error processing PDF: Error extracting text from PDF: EOF marker not found"
        = T "Error adding documents to vector store: " ++ msg).
Proof.
  apply (upload_pdf_failure_reports 0 VectorStore.sample_backend Samples.broken_pdf
           Samples.broken_pdf "notes.pdf" Samples.world0 Samples.world0).
  reflexivity.
Defined.

(** ** The collection *)

Section CollectionFacts.
Import Collections.

Lemma filter_snoc_false {A : Type} (f : A -> bool) (l : list A) (x : A) :
  f x = false -> List.filter f (l ++ [x]) = List.filter f l.
Proof. intros H. rewrite List.filter_app. simpl. rewrite H. apply app_nil_r. Qed.

Lemma ensure_collection_aux (s : server) (name : text) (log : list request) :
  exists sent,
    (_ensure_collection_exists s name log).2 = log ++ sent
    /\ (length sent <= 2)%nat
    /\ List.filter is_delete sent = [].
Proof.
  unfold _ensure_collection_exists, call_get, call_create.
  destruct (get_collection s log name) as [info|e].
  - exists [GetCollection name]. (split; [reflexivity|]; split; [simpl; lia|reflexivity]).
  - exists [GetCollection name; CreateCollection name 768 "Cosine"].
    destruct (create_collection s _ name) as [[]|e']; simpl.
    + rewrite <- app_assoc. (split; [reflexivity|]; split; [simpl; lia|reflexivity]).
    + destruct (contains _ (str e')); simpl; rewrite <- app_assoc; (split; [reflexivity|]; split; [simpl; lia|reflexivity]).
Qed.

End CollectionFacts.

(** [_ensure_collection_exists] first looks the collection up.  When the
    lookup succeeds it sends nothing more and returns; when it fails it
    sends one creation request, and raises only the error of a creation
    that failed for another reason than "already exists".  It never
    deletes. *)
Theorem ensure_collection_exists_requests (s : Collections.server) (name : text)
  (log : list Collections.request) :
  let (r, log') := Collections._ensure_collection_exists s name log in
  match Collections.get_collection s log name with
  | Ok _ => r = Ok tt /\ log' = log ++ [Collections.GetCollection name]
  | Raise _ =>
      log' = log ++ [Collections.GetCollection name;
                     Collections.CreateCollection name 768 "Cosine"]
      /\ match Collections.create_collection s (log ++ [Collections.GetCollection name]) name with
         | Ok _ => r = Ok tt
         | Raise e =>
             r = if contains "already exists" (str e) then Ok tt else Raise e
         end
  end.
Proof.
  unfold Collections._ensure_collection_exists, Collections.call_get,
    Collections.call_create.
  destruct (Collections.get_collection s log name) as [info|e]; [done|].
  destruct (Collections.create_collection s _ name) as [[]|e'].
  - split; [by rewrite <- app_assoc|done].
  - destruct (contains _ (str e')); split; try done; by rewrite <- app_assoc.
Qed.

(** [get_collection_info] always answers with a name, a vectors_count, a
    points_count and a status that is "active" or "available"; it sends at
    most three requests and never a deletion. *)
Theorem get_collection_info_always_answers (s : Collections.server) (name : text)
  (log : list Collections.request) :
  let (info, log') := Collections.get_collection_info s name log in
  is_Some (info !! "name"%string)
  /\ is_Some (info !! "vectors_count"%string)
  /\ is_Some (info !! "points_count"%string)
  /\ (info !! "status"%string = Some (VStr "active")
      \/ info !! "status"%string = Some (VStr "available"))
  /\ exists sent, log' = log ++ sent
       /\ (length sent <= 3)%nat
       /\ List.filter Collections.is_delete sent = [].
Proof.
  unfold Collections.get_collection_info, Collections.call_get.
  destruct (Collections.get_collection s log name) as [info|e]; simpl.
  - unfold Collections.getattr.
    destruct (info !! "name"%string) as [v|] eqn:En; simpl.
    + repeat split; try by eexists. { by left. }
      exists [Collections.GetCollection name]. split; [reflexivity|]. split; [simpl; lia|reflexivity].
    + pose proof (ensure_collection_aux s name (log ++ [Collections.GetCollection name]))
        as H.
      destruct (Collections._ensure_collection_exists s name _) as [[[]|e] log2];
        simpl in H; destruct H as (sent & -> & Hlen & Hdel).
      * repeat split; try by eexists. { by left. }
        exists (Collections.GetCollection name :: sent).
        rewrite <- app_assoc. split; [reflexivity|]. split; [simpl; lia|exact Hdel].
      * repeat split; try by eexists. { by right. }
        exists (Collections.GetCollection name :: sent).
        rewrite <- app_assoc. split; [reflexivity|]. split; [simpl; lia|exact Hdel].
  - pose proof (ensure_collection_aux s name (log ++ [Collections.GetCollection name]))
      as H.
    destruct (Collections._ensure_collection_exists s name _) as [[[]|e'] log2];
      simpl in H; destruct H as (sent & -> & Hlen & Hdel).
    + repeat split; try by eexists. { by left. }
      exists (Collections.GetCollection name :: sent).
      rewrite <- app_assoc. split; [reflexivity|]. split; [simpl; lia|exact Hdel].
    + repeat split; try by eexists. { by right. }
      exists (Collections.GetCollection name :: sent).
      rewrite <- app_assoc. split; [reflexivity|]. split; [simpl; lia|exact Hdel].
Qed.

(** ** The graph *)

Section GraphFacts.
Import Graph.

Lemma text_eqb_refl (a : text) : text_eqb a a = true.
Proof. unfold text_eqb. by apply bool_decide_eq_true. Qed.

(** The path of a query with a weather keyword. *)
Lemma answer_to_weather (svc : services) (q : text) :
  any_in AIPipeline.weather_keywords (lower q) = true ->
  answer_to svc q
  = _evaluate_response
      (_generate_response svc
         (_get_weather svc
            {| user_query := q; query_type := "weather"; weather_data := [];
               retrieved_docs := []; response := []; evaluation := [] |})).
Proof.
  intros H. unfold answer_to, run, _classify_query, initial_state.
  cbn [user_query query_type weather_data retrieved_docs response evaluation].
  by rewrite H.
Qed.

(** The path of a query without weather keyword. *)
Lemma answer_to_rag (svc : services) (q : text) :
  any_in AIPipeline.weather_keywords (lower q) = false ->
  answer_to svc q
  = _evaluate_response
      (_generate_response svc
         (_get_rag_response svc
            {| user_query := q; query_type := "rag"; weather_data := [];
               retrieved_docs := []; response := []; evaluation := [] |})).
Proof.
  intros H. unfold answer_to, run, _classify_query, initial_state.
  cbn [user_query query_type weather_data retrieved_docs response evaluation].
  by rewrite H.
Qed.

(** The words that make an air-quality query are weather keywords. *)
Lemma aqi_is_weather (q : text) :
  any_in (map T ["aqi"; "air quality"; "pollution"; "air quality index"]%string) q = true ->
  any_in AIPipeline.weather_keywords q = true.
Proof.
  rewrite !any_in_spec. intros (w & Hw & Hin). exists w. split; [|done].
  simpl in Hw. destruct Hw as [<-|[<-|[<-|[<-|[]]]]]; simpl; tauto.
Qed.

Lemma weather_request_aqi (q city : text) :
  AIPipeline.weather_request q = AIPipeline.AqiInfo city ->
  any_in AIPipeline.weather_keywords (lower q) = true.
Proof.
  unfold AIPipeline.weather_request. intros H. apply aqi_is_weather.
  destruct (any_in (map T ["aqi"; "air quality"; "pollution"; "air quality index"]%string)
              (lower q)); [done|].
  by destruct (truthy _).
Qed.

End GraphFacts.

(** When the weather lookup raises, the query is still answered: the
    response is "Sorry, I couldn't get weather information: " followed by
    the reason, weather_data holds the reason under "error", and the
    response is evaluated like any other; [process_query] returns this
    answer, with no "error" key of its own. *)
Theorem weather_failure_is_answered (svc : Graph.services) (query : text) (e : exn) :
  any_in AIPipeline.weather_keywords (lower query) = true ->
  Graph.fetch svc (AIPipeline.weather_request query) = Raise e ->
  let final := Graph.answer_to svc query in
  let sorry := T "Sorry, I couldn't get weather information: " ++ str e in
  Graph.response final = sorry
  /\ Graph.weather_data final = [("error"%string, VStr (str e))]
  /\ Graph.evaluation final
     = Graph.evaluation_dict (EvaluationService.evaluate_response query sorry "weather")
  /\ exists d, AIPipeline.process_query (Graph.invoke svc) query = Ok d
       /\ d !! "response"%string = Some (VStr sorry)
       /\ d !! "error"%string = None.
Proof.
  intros Hkw Hfetch. cbv zeta.
  assert (Hfinal : Graph.answer_to svc query
    = Graph._evaluate_response
        (Graph.set_response
           (Graph.set_weather_data
              {| Graph.user_query := query; Graph.query_type := "weather";
                 Graph.weather_data := []; Graph.retrieved_docs := [];
                 Graph.response := []; Graph.evaluation := [] |}
              [("error"%string, VStr (str e))])
           (T "Sorry, I couldn't get weather information: " ++ str e))).
  { rewrite (answer_to_weather svc query Hkw). f_equal.
    unfold Graph._get_weather. cbn [Graph.user_query]. rewrite Hfetch.
    reflexivity. }
  split; [by rewrite Hfinal|]. split; [by rewrite Hfinal|]. split; [by rewrite Hfinal|].
  eexists. split; [reflexivity|].
  unfold Graph.invoke. cbn [AIPipeline.user_query AIPipeline.initial_state].
  fold (Graph.answer_to svc query). rewrite Hfinal. split; reflexivity.
Qed.

Lemma weather_failure_is_answered_witness :
  let final := Graph.answer_to Graph.sample_services "What's the weather in Paris?" in
  let sorry :=
    T "Sorry, I couldn't get weather information: "
      ++ str (Exception "Weather API request failed: timeout") in
  Graph.response final = sorry
  /\ Graph.weather_data final
     = [("error"%string, VStr (str (Exception "Weather API request failed: timeout")))]
  /\ Graph.evaluation final
     = Graph.evaluation_dict
         (EvaluationService.evaluate_response "What's the weather in Paris?" sorry "weather")
  /\ exists d,
       AIPipeline.process_query (Graph.invoke Graph.sample_services)
         "What's the weather in Paris?" = Ok d
       /\ d !! "response"%string = Some (VStr sorry)
       /\ d !! "error"%string = None.
Proof.
  apply (weather_failure_is_answered Graph.sample_services "What's the weather in Paris?"
           (Exception "Weather API request failed: timeout")).
  - reflexivity.
  - reflexivity.
Defined.

(** When the vector search raises, the failure is not recognised as one:
    the text "Error retrieving documents: ..." is handed to the language
    model as the content of the only document, and the response is what
    the model makes of it. *)
Theorem search_failure_is_sent_to_the_model (svc : Graph.services) (query : text) (e : exn) :
  any_in AIPipeline.weather_keywords (lower query) = false ->
  Graph.search svc query 3 = Raise e ->
  let failure_doc :=
    [("content"%string, VStr (T "Error retrieving documents: " ++ str e))] in
  Graph.retrieved_docs (Graph.answer_to svc query) = [failure_doc]
  /\ Graph.response (Graph.answer_to svc query)
     = match Graph.process_rag_query svc [failure_doc] query with
       | Ok r => r
       | Raise e' => T "Error generating response: " ++ str e'
       end.
Proof.
  intros Hkw Hsearch. cbv zeta. rewrite (answer_to_rag svc query Hkw).
  unfold Graph._get_rag_response. cbn [Graph.user_query]. rewrite Hsearch.
  unfold Graph._generate_response, Graph.set_retrieved_docs.
  cbn [Graph.user_query Graph.query_type Graph.retrieved_docs Graph.weather_data].
  change (text_eqb (T "rag") (T "weather")) with false.
  change (text_eqb (T "rag") (T "rag")) with true.
  cbv iota.
  change (WeatherAPI.has_key _ "error") with false. cbv iota.
  destruct (Graph.process_rag_query svc _ query); split; reflexivity.
Qed.

Lemma search_failure_is_sent_to_the_model_witness :
  let failure_doc :=
    [("content"%string,
      VStr (T "Error retrieving documents: " ++ str (Exception "connection refused")))] in
  Graph.retrieved_docs
    (Graph.answer_to Graph.sample_services_search_down "Explain the AutoGen framework")
  = [failure_doc]
  /\ Graph.response
       (Graph.answer_to Graph.sample_services_search_down "Explain the AutoGen framework")
     = match Graph.process_rag_query Graph.sample_services_search_down [failure_doc]
               "Explain the AutoGen framework" with
       | Ok r => r
       | Raise e' => T "Error generating response: " ++ str e'
       end.
Proof.
  apply (search_failure_is_sent_to_the_model Graph.sample_services_search_down
           "Explain the AutoGen framework" (Exception "connection refused")).
  - reflexivity.
  - reflexivity.
Defined.

(** With an empty index, a query without weather keyword is answered by
    the fixed "not enough information" text, and that answer is rated
    accuracy 4 (it mentions "document"), completeness 3 and clarity 3, with
    the verdict "Good response quality". *)
Theorem empty_index_answer (svc : Graph.services) (query : text) :
  any_in AIPipeline.weather_keywords (lower query) = false ->
  Graph.search svc query 3 = Ok [] ->
  let final := Graph.answer_to svc query in
  let ev := EvaluationService.evaluate_response query Graph.no_information "rag" in
  Graph.response final = Graph.no_information
  /\ Graph.evaluation final = Graph.evaluation_dict ev
  /\ EvaluationService.accuracy ev = 4
  /\ EvaluationService.completeness ev = 3
  /\ EvaluationService.clarity ev = 3
  /\ last (EvaluationService.feedback ev) = Some (T "✅ Good response quality").
Proof.
  intros Hkw Hsearch. cbv zeta. rewrite (answer_to_rag svc query Hkw).
  unfold Graph._get_rag_response. cbn [Graph.user_query]. rewrite Hsearch.
  split; [reflexivity|]. split; [reflexivity|].
  split; [reflexivity|]. split; [reflexivity|]. split; [reflexivity|].
  pose proof (_evaluate_relevance_range query Graph.no_information "rag") as Hr.
  assert (Hrel : 3 <= EvaluationService._evaluate_relevance query Graph.no_information "rag").
  { unfold EvaluationService._evaluate_relevance. simpl truthy. cbn [negb]. cbv zeta.
    match goal with |- context [0 <? ?x] => destruct (Z.ltb_spec 0 x) end; lia. }
  destruct (evaluate_response_feedback_aux query Graph.no_information "rag") as [_ ->].
  unfold Scores.verdict, Scores.total, EvaluationService.evaluate_response.
  cbn [EvaluationService.accuracy EvaluationService.relevance
       EvaluationService.completeness EvaluationService.clarity].
  change (EvaluationService._evaluate_accuracy query Graph.no_information "rag") with 4.
  change (EvaluationService._evaluate_completeness query Graph.no_information "rag")
    with 3.
  change (EvaluationService._evaluate_clarity Graph.no_information) with 3.
  set (r := EvaluationService._evaluate_relevance query Graph.no_information "rag") in *.
  destruct (Z.leb_spec 16 (4 + r + 3 + 3)); [lia|].
  destruct (Z.leb_spec 12 (4 + r + 3 + 3)); [done|lia].
Qed.

Lemma empty_index_answer_witness :
  let final := Graph.answer_to Graph.sample_services "Explain the AutoGen framework" in
  let ev :=
    EvaluationService.evaluate_response "Explain the AutoGen framework"
      Graph.no_information "rag" in
  Graph.response final = Graph.no_information
  /\ Graph.evaluation final = Graph.evaluation_dict ev
  /\ EvaluationService.accuracy ev = 4
  /\ EvaluationService.completeness ev = 3
  /\ EvaluationService.clarity ev = 3
  /\ last (EvaluationService.feedback ev) = Some (T "✅ Good response quality").
Proof.
  apply (empty_index_answer Graph.sample_services "Explain the AutoGen framework").
  - reflexivity.
  - reflexivity.
Defined.

(** A query with a weather keyword never reaches the vector search or the
    document side of the language model: its final state is the same under
    any two sets of services that agree on the weather side. *)
Theorem weather_queries_skip_documents (a b : Graph.services) (query : text) :
  any_in AIPipeline.weather_keywords (lower query) = true ->
  Graph.same_weather_services a b ->
  Graph.answer_to a query = Graph.answer_to b query.
Proof.
  intros Hkw (Hcity & Hcoord & Hmodel & Hstr).
  rewrite !(answer_to_weather _ query Hkw). f_equal.
  unfold Graph._get_weather, Graph.fetch. rewrite Hcity, Hcoord.
  match goal with
  | |- context [match ?f with Ok _ => _ | Raise _ => _ end] => destruct f
  end;
    unfold Graph._generate_response, Graph.set_weather_data, Graph.format_value;
    cbn [Graph.user_query Graph.query_type Graph.retrieved_docs Graph.weather_data];
    rewrite text_eqb_refl, Hmodel, Hstr; reflexivity.
Qed.

Lemma weather_queries_skip_documents_witness :
  Graph.answer_to Graph.sample_services "Is it cold in Delhi?"
  = Graph.answer_to Graph.sample_services_search_down "Is it cold in Delhi?".
Proof.
  apply (weather_queries_skip_documents Graph.sample_services
           Graph.sample_services_search_down "Is it cold in Delhi?").
  - reflexivity.
  - repeat split.
Defined.

(** A query without weather keyword never reaches the weather lookups or
    the weather side of the language model: its final state is the same
    under any two sets of services that agree on the document side. *)
Theorem document_queries_skip_weather (a b : Graph.services) (query : text) :
  any_in AIPipeline.weather_keywords (lower query) = false ->
  Graph.same_document_services a b ->
  Graph.answer_to a query = Graph.answer_to b query.
Proof.
  intros Hkw (Hsearch & Hmodel).
  rewrite !(answer_to_rag _ query Hkw). f_equal.
  unfold Graph._get_rag_response. rewrite Hsearch.
  destruct (Graph.search b _ 3);
    unfold Graph._generate_response, Graph.set_retrieved_docs;
    cbn [Graph.user_query Graph.query_type Graph.retrieved_docs Graph.weather_data];
    change (text_eqb (T "rag") (T "weather")) with false;
    rewrite text_eqb_refl, Hmodel; reflexivity.
Qed.

Lemma document_queries_skip_weather_witness :
  Graph.answer_to Graph.sample_services "Explain the AutoGen framework"
  = Graph.answer_to Graph.sample_services_weather_up "Explain the AutoGen framework".
Proof.
  apply (document_queries_skip_weather Graph.sample_services
           Graph.sample_services_weather_up "Explain the AutoGen framework").
  - reflexivity.
  - repeat split.
Defined.

(** Air quality is only known for the twenty Indian cities: when the
    lookup is an air-quality lookup for any other city, the response is
    "Sorry, I couldn't get weather information: City <city> not found in
    Indian cities database", whatever the services answer.  This is so for
    London, the city taken when the query names none. *)
Theorem air_quality_only_for_indian_cities (svc : Graph.services) (query city : text) :
  AIPipeline.weather_request query = AIPipeline.AqiInfo city ->
  WeatherAPI.is_indian city = false ->
  Graph.response (Graph.answer_to svc query)
  = T "Sorry, I couldn't get weather information: City " ++ city
      ++ T " not found in Indian cities database"
  /\ (AIPipeline._extract_city_from_query query = [] -> city = T "London").
Proof.
  intros Hreq Hind. split.
  - rewrite (answer_to_weather svc query (weather_request_aqi _ _ Hreq)).
    unfold Graph._get_weather. cbn [Graph.user_query]. rewrite Hreq.
    unfold Graph.fetch, WeatherAPI.get_aqi_info.
    unfold WeatherAPI.is_indian in Hind.
    destruct (WeatherAPI.coordinates (lower city)) as [[lat lon]|]; [discriminate|].
    unfold Graph._generate_response, Graph.set_weather_data.
    cbn [Graph.user_query Graph.query_type Graph.retrieved_docs Graph.weather_data].
    rewrite text_eqb_refl. cbv iota.
    unfold Graph._evaluate_response, Graph.set_evaluation, Graph.set_response.
    cbn [Graph.response]. unfold WeatherAPI.not_found. simpl. reflexivity.
  - intros Hex. pose proof (default_city_is_london query Hex) as Hcall.
    by rewrite Hreq in Hcall.
Qed.

Lemma air_quality_only_for_indian_cities_witness :
  Graph.response (Graph.answer_to Graph.sample_services "How is the pollution today?")
  = T "Sorry, I couldn't get weather information: City " ++ T "London"
      ++ T " not found in Indian cities database"
  /\ (AIPipeline._extract_city_from_query "How is the pollution today?" = [] ->
      T "London" = T "London").
Proof.
  apply (air_quality_only_for_indian_cities Graph.sample_services
           "How is the pollution today?" "London").
  - reflexivity.
  - reflexivity.
Defined.

(** ** More on classification and city extraction *)

Section ClassifierFacts.

Lemma lower_app (a b : text) : lower (a ++ b) = lower a ++ lower b.
Proof. apply map_app. Qed.

Lemma contains_app (w a q b : text) :
  contains w q = true -> contains w (a ++ q ++ b) = true.
Proof.
  intros H. eapply contains_trans; [exact H|]. apply contains_spec. by exists a, b.
Qed.

End ClassifierFacts.

(** Classification looks for the keywords anywhere in the text: a query
    classified as weather stays so with any text before and after it. *)
Theorem classification_survives_context (before query after : text) :
  AIPipeline.query_type (AIPipeline._classify_query (AIPipeline.initial_state query))
  = T "weather" ->
  AIPipeline.query_type
    (AIPipeline._classify_query
       (AIPipeline.initial_state (before ++ query ++ after)))
  = T "weather".
Proof.
  unfold AIPipeline._classify_query. cbn [AIPipeline.query_type AIPipeline.user_query
    AIPipeline.initial_state].
  destruct (any_in AIPipeline.weather_keywords (lower query)) eqn:E; [|discriminate].
  intros _. apply any_in_spec in E as (w & Hw & Hin).
  assert (H : any_in AIPipeline.weather_keywords (lower (before ++ query ++ after)) = true).
  { apply any_in_spec. exists w. split; [done|].
    rewrite !lower_app. by apply contains_app. }
  by rewrite H.
Qed.

Lemma classification_survives_context_witness :
  AIPipeline.query_type
    (AIPipeline._classify_query
       (AIPipeline.initial_state (T "Tell me: " ++ T "is it sunny" ++ T " in the report?")))
  = T "weather".
Proof.
  apply (classification_survives_context "Tell me: " "is it sunny" " in the report?").
  reflexivity.
Defined.

(** The gazetteer is searched in its own order, not in the order of the
    query: any query that mentions london, in any letter case, gets the
    city London, whatever other city it names and wherever. *)
Theorem london_comes_first (query : text) :
  contains "london" (lower query) = true ->
  AIPipeline._extract_city_from_query query = T "London".
Proof.
  intros H. unfold AIPipeline._extract_city_from_query, AIPipeline.first_city.
  change AIPipeline.cities with (T "london" :: tl AIPipeline.cities).
  cbn [List.find]. by rewrite H.
Qed.

Lemma london_comes_first_witness :
  AIPipeline._extract_city_from_query "Weather in Paris, then London" = T "London".
Proof. apply (london_comes_first "Weather in Paris, then London"). reflexivity. Defined.

(** ** How many chunks *)

Section ChunkCount.
Import Chunks.







End ChunkCount.


